(** * MI-AOD inference glue: a shallow embedding of [mmdet/apis/inference.py]

    The development follows the source file top to bottom:

    - [Py]          Python values, exceptions and results;
    - [Tensor]      torch tensors of rank 1 and 2 and the elementwise
                    operations the uncertainty formulas use;
    - [Uncertainty] lines 119-160 of [inference_detector]: sigmoid, formula
                    dispatch on [cfg.uncertainty_type], [argsort], the slice
                    [arg[-cfg.k:]] and the final mean;
    - [Inference]   the interpreter state (grad mode, CUDA, the modules of
                    the detector, a trace of the framework calls), the
                    state-and-exception monad over it, and in it
                    [init_detector], [LoadImage.__call__],
                    [inference_detector] and [async_inference_detector];
                    what the file calls in mmcv, torch and the detector is
                    a record of functions, [framework];
    - [Fixture]     one small framework to run the entry points on.

    The modules after these hold the facts, and [UncertaintyClaims] and
    [InferenceClaims] the properties C1-C10.  [Stages] and [MoreFixture]
    add what the last five modules need, which hold further properties
    of the same code, X1-X26: [InitExtras], [LoadImageExtras],
    [RunExtras], [FormulaExtras] and [TopKExtras].

    Tensor entries are idealised as real numbers: rounding, infinities and
    NaN of IEEE arithmetic are outside the model.  Where torch would produce
    NaN (the mean of no element, [0 * log 0]) the statements that depend on
    it carry the hypothesis that excludes the case.  In float32 the sigmoid
    saturates to 0 and to 1, and a rounded mean can leave the range of its
    terms by one unit in the last place.  The statements about signs and
    bounds are therefore kept to what both arithmetics give: closed
    bounds, the sign of sums of terms of one sign, and for a larger [k]
    the samples it selects rather than the order of two means. *)

From Stdlib Require Import Reals Lra Lia ZArith.
From stdpp Require Import base list strings sorting gmap.

(* ===================================================================== *)
(** * Python values, exceptions, results                                  *)
(* ===================================================================== *)

Module Py.

(** The exceptions the file raises itself, and the ones that reach it from
    the framework. *)
Inductive exn : Type :=
  | TypeError (msg : string)
  | ValueError (msg : string)
  | KeyError (key : string)
  | AttributeError (msg : string)
  | CudaError                      (* [Tensor.cuda()] without a CUDA device *)
  | External (msg : string).       (* anything a framework call raises *)

Inductive result (A : Type) : Type :=
  | Ok (a : A)
  | Raise (e : exn).
Arguments Ok {A} a.
Arguments Raise {A} e.

#[global] Instance result_ret : MRet result := λ A a, Ok a.
#[global] Instance result_bind : MBind result := λ A B f r,
  match r with Ok a => f a | Raise e => Raise e end.

(** An image as numpy holds it: its shape and its bytes. *)
Record ndarray : Type := { shape : list nat; pixels : list Z }.

(** The Python values that reach the type tests of the file and the
    entries of the dict a pipeline passes along. *)
#[warnings="-register-all"]
Inductive value : Type :=
  | VNone
  | VBool (b : bool)
  | VInt (z : Z)
  | VStr (s : string)
  | VTuple (l : list nat)          (* a tuple of ints: an array shape *)
  | VList (l : list value)
  | VArray (a : ndarray).

(** [isinstance(v, str)]. *)
Definition is_str (v : value) : bool :=
  match v with VStr _ => true | _ => false end.

(** [type(v).__name__] with its module, and what an f-string prints for
    [type(v)]. *)
Definition type_name (v : value) : string :=
  match v with
  | VNone => "NoneType"
  | VBool _ => "bool"
  | VInt _ => "int"
  | VStr _ => "str"
  | VTuple _ => "tuple"
  | VList _ => "list"
  | VArray _ => "numpy.ndarray"
  end.

Definition type_repr (v : value) : string :=
  "<class '" +:+ type_name v +:+ "'>".

(** The attribute [.shape], which only an array has. *)
Definition get_shape (v : value) : result value :=
  match v with
  | VArray a => Ok (VTuple (shape a))
  | _ => Raise (AttributeError
                  ("'" +:+ type_name v
                   +:+ "' object has no attribute 'shape'"))
  end.

(** [repr] of a [str] without quotes or backslashes, and of a list of such
    strings: ['a', 'b'].  This is what an f-string prints for a list. *)
Definition repr_str (s : string) : string := "'" +:+ s +:+ "'".

Fixpoint join (sep : string) (l : list string) : string :=
  match l with
  | [] => ""
  | [s] => s
  | s :: l' => s +:+ sep +:+ join sep l'
  end.

Definition repr_list (l : list string) : string :=
  "[" +:+ join ", " (repr_str <$> l) +:+ "]".

(** [substring_of s t]: [s] occurs in [t]. *)
Definition substring_of (s t : string) : Prop :=
  ∃ pre post, t = pre +:+ s +:+ post.

End Py.

(* ===================================================================== *)
(** * Tensors                                                             *)
(* ===================================================================== *)

Module Tensor.
Local Open Scope R_scope.

(** A rank-1 tensor, and a rank-2 tensor as its list of rows: dim 0 runs
    over the samples, dim 1 over the features. *)
Abbreviation tensor1 := (list R).
Abbreviation tensor2 := (list (list R)).

Definition t_map (f : R → R) (t : tensor2) : tensor2 :=
  (λ row : list R, f <$> row) <$> t.
Definition t_zip (f : R → R → R) (a b : tensor2) : tensor2 :=
  zip_with (zip_with f) a b.

(** Two tensors have the same shape. *)
Definition same_shape (a b : tensor2) : Prop :=
  Forall2 (λ r1 r2 : list R, length r1 = length r2) a b.

(** Elementwise torch operators between tensors. *)
Definition t_add : tensor2 → tensor2 → tensor2 := t_zip Rplus.
Definition t_sub : tensor2 → tensor2 → tensor2 := t_zip Rminus.
Definition t_mul : tensor2 → tensor2 → tensor2 := t_zip Rmult.
Definition t_div : tensor2 → tensor2 → tensor2 := t_zip Rdiv.

(** Operators with a Python scalar on one side. *)
Definition t_neg : tensor2 → tensor2 := t_map Ropp.
Definition t_log : tensor2 → tensor2 := t_map ln.
Definition t_pow (t : tensor2) (n : nat) : tensor2 := t_map (λ x, x ^ n) t.
Definition t_rsub (c : R) : tensor2 → tensor2 := t_map (λ x, c - x).  (* c - t *)
Definition t_lmul (c : R) : tensor2 → tensor2 := t_map (λ x, c * x).  (* c * t *)
Definition t_rmul (t : tensor2) (c : R) : tensor2 := t_map (λ x, x * c) t.  (* t * c *)
Definition t_rdiv (t : tensor2) (c : R) : tensor2 := t_map (λ x, x / c) t.  (* t / c *)

(** A Python scalar broadcast against a tensor of the shape of [t]. *)
Definition t_full_like (t : tensor2) (c : R) : tensor2 := t_map (λ _, c) t.

(** [torch.cat(ts, 0)]. *)
Definition cat0 (ts : list tensor2) : tensor2 := concat ts.

(** [torch.nn.Sigmoid()]. *)
Definition sigmoid (x : R) : R := 1 / (1 + exp (- x)).
Definition t_sigmoid : tensor2 → tensor2 := t_map sigmoid.

(** [.sum()] and [.mean()] of a rank-1 tensor, and [.mean(dim=1)] of a
    rank-2 tensor.  torch returns NaN for the mean of no element. *)
Definition Rsum (l : list R) : R := foldr Rplus 0 l.
Definition mean (l : list R) : R := Rsum l / INR (length l).
Definition mean_dim1 (t : tensor2) : tensor1 := mean <$> t.
Definition sum_dim1 (t : tensor2) : tensor1 := Rsum <$> t.

End Tensor.

(* ===================================================================== *)
(** * The uncertainty score: lines 119-160 of [inference_detector]        *)
(* ===================================================================== *)

Module Uncertainty.
Import Py Tensor.
Local Open Scope R_scope.

(** ** Lines 123-158: the dispatch on [cfg.uncertainty_type] *)

(** Line 135: [kl_diver = lambda p, q: p * torch.log(p / q)]. *)
Definition kl_diver (p q : tensor2) : tensor2 := t_mul p (t_log (t_div p q)).

(** Lines 141-152.  [alpha] and [gamma] are the locals of line 141; the
    exponent [2.] is integral, so [.pow(gamma)] is the square.  A Python
    float is truthy when it is not zero. *)
Definition alpha : R := 0.25.
Definition gamma : nat := 2.

Definition focal_loss (y_head_f_1 y_head_f_2 : tensor2) : tensor2 :=
  let p_t := t_add (t_mul y_head_f_1 y_head_f_2)
                   (t_mul (t_rsub 1 y_head_f_1) (t_rsub 1 y_head_f_2)) in
  let alpha_factor := t_full_like y_head_f_1 1 in
  let modulating_factor := t_full_like y_head_f_1 1 in
  let ce := t_neg (t_add (t_mul y_head_f_1 (t_log y_head_f_2))
                         (t_mul (t_rsub 1 y_head_f_1)
                                (t_log (t_rsub 1 y_head_f_2)))) in
  let alpha_factor :=
    if Req_dec_T alpha 0 then alpha_factor
    else t_add (t_rmul y_head_f_1 alpha)
               (t_rmul (t_rsub 1 y_head_f_1) (1 - alpha)) in
  let modulating_factor :=
    if Nat.eqb gamma 0 then modulating_factor
    else t_pow (t_rsub 1 p_t) gamma in
  t_mul (t_mul alpha_factor modulating_factor) ce.

(** Lines 154-155. *)
Definition uncertainty_types : list string :=
  ["l2_norm"; "kl_divergence"; "cross_entropy"; "js_divergence"; "focal_loss"].

(** Lines 156-158: the message of the [ValueError]. *)
Definition invalid_type_msg (uncertainty_type : string) : string :=
  uncertainty_type +:+ " is not valid uncertainty_type. "
  +:+ "List of possible uncertainty_type: " +:+ repr_list uncertainty_types
  +:+ ". Change it in config parameters.".

(** Lines 123-158.  [uncertainty_all_N] has one entry per sample. *)
Definition uncertainty_all_N (uncertainty_type : string)
    (y_head_f_1 y_head_f_2 : tensor2) : result tensor1 :=
  if String.eqb uncertainty_type "l2_norm" then
    let loss_p := t_pow (t_sub y_head_f_1 y_head_f_2) 2 in
    Ok (mean_dim1 loss_p)
  else if String.eqb uncertainty_type "kl_divergence" then
    let loss_p := t_mul y_head_f_1 (t_log (t_div y_head_f_1 y_head_f_2)) in
    Ok (mean_dim1 loss_p)
  else if String.eqb uncertainty_type "cross_entropy" then
    let loss_p :=
      t_neg (t_add (t_mul y_head_f_1 (t_log y_head_f_2))
                   (t_mul (t_rsub 1 y_head_f_1)
                          (t_log (t_rsub 1 y_head_f_2)))) in
    Ok (mean_dim1 loss_p)
  else if String.eqb uncertainty_type "js_divergence" then
    let loss_p :=
      t_lmul 0.5 (kl_diver y_head_f_1
                    (t_rdiv (t_add y_head_f_1 y_head_f_2) 2)) in
    let loss_p :=
      t_add loss_p
            (t_lmul 0.5 (kl_diver y_head_f_2
                           (t_rdiv (t_add y_head_f_1 y_head_f_2) 2))) in
    Ok (mean_dim1 loss_p)
  else if String.eqb uncertainty_type "focal_loss" then
    Ok (mean_dim1 (focal_loss y_head_f_1 y_head_f_2))
  else
    Raise (ValueError (invalid_type_msg uncertainty_type)).

(** ** Lines 159-160: [argsort], the slice and the mean *)

(** [u[idx]] with an index tensor [idx]. *)
Definition index (u : tensor1) (idx : list nat) : tensor1 :=
  (λ i, nth i u 0) <$> idx.

(** [Tensor.argsort()] sorts ascending and promises nothing about the order
    of equal entries.  [is_argsort u arg] is that contract: [arg] lists the
    indices of [u] once each, and reading [u] along [arg] is ascending. *)
Definition is_argsort (u : tensor1) (arg : list nat) : Prop :=
  arg ≡ₚ seq 0 (length u) ∧ Sorted Rle (index u arg).

(** One function that meets the contract: a merge sort of the indices by
    the entry they point at. *)
Definition key_le (u : tensor1) (i j : nat) : Prop := nth i u 0 <= nth j u 0.

#[local] Instance key_le_dec u i j : Decision (key_le u i j) :=
  Rle_dec (nth i u 0) (nth j u 0).

Definition argsort (u : tensor1) : list nat :=
  merge_sort (key_le u) (seq 0 (length u)).

(** A Python slice [l[start:]] of a sequence: a negative [start] counts from
    the end and is clamped at the front, a positive one is clamped at the
    end.  It never raises. *)
Definition slice_from {A} (start : Z) (l : list A) : list A :=
  let n := Z.of_nat (length l) in
  let s := if (start <? 0)%Z then Z.max (start + n) 0 else Z.min start n in
  drop (Z.to_nat s) l.

(** Line 160 with the index tensor [arg] given. *)
Definition uncertainty_single_with (arg : list nat) (u : tensor1) (k : Z) : R :=
  mean (index u (slice_from (- k) arg)).

(** Lines 159-160. *)
Definition uncertainty_single (u : tensor1) (k : Z) : R :=
  let arg := argsort u in
  uncertainty_single_with arg u k.

(** Lines 119-160 on the raw heads the detector returns. *)
Definition uncertainty_of_heads (uncertainty_type : string) (k : Z)
    (heads_1 heads_2 : list tensor2) : result R :=
  let y_head_f_1 := cat0 heads_1 in
  let y_head_f_2 := cat0 heads_2 in
  let y_head_f_1 := t_sigmoid y_head_f_1 in
  let y_head_f_2 := t_sigmoid y_head_f_2 in
  match uncertainty_all_N uncertainty_type y_head_f_1 y_head_f_2 with
  | Ok u => Ok (uncertainty_single u k)
  | Raise e => Raise e
  end.

(** ** The formulas as the specification words them, entry by entry *)

Inductive metric := L2Norm | KLDivergence | CrossEntropy | JSDivergence | FocalLoss.

Definition metric_name (m : metric) : string :=
  match m with
  | L2Norm => "l2_norm"
  | KLDivergence => "kl_divergence"
  | CrossEntropy => "cross_entropy"
  | JSDivergence => "js_divergence"
  | FocalLoss => "focal_loss"
  end.

Definition spec_cross_entropy (y1 y2 : R) : R :=
  - (y1 * ln y2 + (1 - y1) * ln (1 - y2)).

Definition spec_formula (m : metric) (y1 y2 : R) : R :=
  match m with
  | L2Norm => (y1 - y2) ^ 2
  | KLDivergence => y1 * ln (y1 / y2)
  | CrossEntropy => spec_cross_entropy y1 y2
  | JSDivergence =>
      let m := (y1 + y2) / 2 in
      0.5 * y1 * ln (y1 / m) + 0.5 * y2 * ln (y2 / m)
  | FocalLoss =>
      let p_t := y1 * y2 + (1 - y1) * (1 - y2) in
      let alpha_t := 0.25 * y1 + (1 - 0.25) * (1 - y1) in
      alpha_t * (1 - p_t) ^ 2 * spec_cross_entropy y1 y2
  end.

(** The arithmetic mean of the formula over the features of one sample. *)
Definition spec_sample (m : metric) (row1 row2 : list R) : R :=
  Rsum (zip_with (spec_formula m) row1 row2) / INR (length row1).

Definition spec_uncertainty (m : metric) (y1 y2 : tensor2) : tensor1 :=
  zip_with (spec_sample m) y1 y2.

(** Entries strictly between 0 and 1, as the sigmoid leaves them as long
    as it does not saturate, and at least one feature per sample. *)
Definition post_sigmoid (y : tensor2) : Prop :=
  Forall (λ row, row ≠ [] ∧ Forall (λ x, 0 < x < 1) row) y.

(** The metric is zero on every sample when the two heads are equal. *)
Definition zero_at_identical_heads (m : metric) : Prop :=
  ∀ y : tensor2, post_sigmoid y →
    uncertainty_all_N (metric_name m) y y = Ok ((λ _, 0) <$> y).

(** The binary entropy of a probability [y], and the weight that lines
    141-152 put on it when both heads hold [y]: [alpha_factor] times
    [modulating_factor], with [p_t = y * y + (1 - y) * (1 - y)]. *)
Definition binary_entropy (y : R) : R := - (y * ln y + (1 - y) * ln (1 - y)).

Definition focal_weight (y : R) : R :=
  (0.25 * y + (1 - 0.25) * (1 - y)) * (1 - (y * y + (1 - y) * (1 - y))) ^ 2.

(** When the two heads are equal, the metric is on every sample the mean
    of [f] over the features. *)
Definition value_at_identical_heads (m : metric) (f : R → R) : Prop :=
  ∀ y : tensor2, post_sigmoid y →
    uncertainty_all_N (metric_name m) y y
    = Ok ((λ row : list R, mean (f <$> row)) <$> y).

End Uncertainty.

(* ===================================================================== *)
(** * The four entry points                                               *)
(* ===================================================================== *)

Module Inference.
Import Py Tensor Uncertainty.

(** ** The interpreter state the file reads and writes *)

(** A submodule of the detector as line 103-108 see it. *)
Record module_ : Type := {
  is_roi : bool;            (* isinstance(m, (RoIPool, RoIAlign)) *)
  aligned : bool;
  use_torchvision : bool }.

Inductive event : Type :=
  | EvWarn (msg : string)
  | EvBuild                           (* build_detector was called *)
  | EvLoadCheckpoint (path : string)
  | EvTo (device : string)            (* model.to(device) *)
  | EvEval                            (* model.eval() *)
  | EvCuda                            (* a tensor was moved to CUDA *)
  | EvForward (grad : bool)           (* model(...) ran, with this grad mode *)
  | EvAForward (grad : bool).         (* model.aforward_test(...) ran *)

Record world : Type := {
  grad_enabled : bool;                (* torch.is_grad_enabled() *)
  cuda_available : bool;              (* the host has a usable CUDA device *)
  modules : list module_;             (* model.modules(), mutated in place *)
  trace : list event }.               (* what has happened, oldest first *)

Definition set_grad (b : bool) (w : world) : world :=
  {| grad_enabled := b; cuda_available := cuda_available w;
     modules := modules w; trace := trace w |}.
Definition set_modules (ms : list module_) (w : world) : world :=
  {| grad_enabled := grad_enabled w; cuda_available := cuda_available w;
     modules := ms; trace := trace w |}.
Definition emit (e : event) (w : world) : world :=
  {| grad_enabled := grad_enabled w; cuda_available := cuda_available w;
     modules := modules w; trace := trace w ++ [e] |}.

(** State and exceptions: the state survives a raise. *)
Definition M (A : Type) : Type := world → result A * world.

Definition ret {A} (a : A) : M A := λ w, (Ok a, w).
Definition raise {A} (e : exn) : M A := λ w, (Raise e, w).
Definition bind {A B} (m : M A) (f : A → M B) : M B := λ w,
  match m w with
  | (Ok a, w') => f a w'
  | (Raise e, w') => (Raise e, w')
  end.
Definition lift {A} (r : result A) : M A := λ w, (r, w).
Definition modify (f : world → world) : M unit := λ w, (Ok tt, f w).

#[global] Instance M_ret : MRet M := @ret.
#[global] Instance M_bind : MBind M := λ A B f m, bind m f.

(** A framework call: it is recorded whether it returns or raises. *)
Definition call {A} (e : event) (r : result A) : M A := λ w, (r, emit e w).

Definition warn (msg : string) : M unit := modify (emit (EvWarn msg)).

(** [with torch.no_grad(): body].  [__enter__] saves the mode and switches
    it off, [__exit__] puts the saved mode back, also when [body] raises. *)
Definition no_grad {A} (body : M A) : M A := λ w,
  let prev := grad_enabled w in
  let '(r, w') := body (set_grad false w) in
  (r, set_grad prev w').

(** [torch.set_grad_enabled(mode)] called as a function. *)
Definition set_grad_enabled (mode : bool) : M unit := modify (set_grad mode).

(** [tensor.cuda()]: torch raises when the host has no CUDA device. *)
Definition tensor_cuda : M unit := λ w,
  if cuda_available w then (Ok tt, emit EvCuda w) else (Raise CudaError, w).

(** ** Configs and detectors *)

Record Config : Type := {
  pretrained : option string;         (* config.model.pretrained *)
  pipeline : list string;             (* cfg.data.test.pipeline *)
  uncertainty_type : string;          (* cfg.uncertainty_type *)
  k : Z }.                            (* cfg.k *)

Definition set_pretrained (p : option string) (c : Config) : Config :=
  {| pretrained := p; pipeline := pipeline c;
     uncertainty_type := uncertainty_type c; k := k c |}.

(** What can be passed as [config] to [init_detector]. *)
Inductive config_arg : Type :=
  | AValue (v : value)
  | AConfig (c : Config).

(** Lines 27 and 29: [isinstance(config, str)] or
    [isinstance(config, mmcv.Config)]. *)
Definition accepted_config (a : config_arg) : bool :=
  match a with
  | AValue (VStr _) | AConfig _ => true
  | AValue _ => false
  end.

Definition arg_type_repr (a : config_arg) : string :=
  match a with
  | AValue v => type_repr v
  | AConfig _ => "<class 'mmcv.utils.config.Config'>"
  end.

Abbreviation dict := (gmap string value).

(** The detector as the file uses it; [Data] is what the pipeline hands to
    it and [Dets] what it detects. *)
Record Detector {Data Dets : Type} : Type := {
  cfg : option Config;                (* model.cfg, set by init_detector *)
  device : string;                    (* next(model.parameters()).device *)
  CLASSES : option (list string);
  forward_result : Data → result Dets;
  forward_heads : Data → result (list tensor2 * list tensor2 * list tensor2);
  aforward_test : Data → result Dets }.
Arguments Detector : clear implicits.

(** The framework, as far as the file calls it. *)
Record framework {Data Dets : Type} : Type := {
  Config_fromfile : string → result Config;        (* mmcv.Config.fromfile *)
  build_detector : Config → result (Detector Data Dets);
  load_checkpoint :                                (* checkpoint['meta'].get('CLASSES') *)
    Detector Data Dets → string → option string → result (option (list string));
  get_classes_coco : list string;                  (* get_classes('coco') *)
  imread : value → result value;                   (* mmcv.imread *)
  rest_pipeline :                                  (* the other transforms, then collate *)
    list string → dict → result Data;
  scatter : Data → string → result Data;
  img_metas_data : Data → Data;                    (* line 111 *)
  img_to_cuda : Data → Data;                       (* line 115, on success *)
  img_as_x : Data → Data }.                        (* line 116 *)
Arguments framework : clear implicits.

(** What [filename] and [ori_filename] are set to for the entry [v]. *)
Definition filename_of (v : value) : value := if is_str v then v else VNone.

(** The dict [LoadImage.__call__] returns for the entry [v] and the array
    [a] read from it. *)
Definition loaded (results : dict) (v : value) (a : ndarray) : dict :=
  <["ori_shape" := VTuple (shape a)]>
    (<["img_shape" := VTuple (shape a)]>
       (<["img_fields" := VList [VStr "img"]]>
          (<["img" := VArray a]>
             (<["ori_filename" := filename_of v]>
                (<["filename" := filename_of v]> results))))).

Section Framework.

Context {Data Dets : Type} (F : framework Data Dets).

Abbreviation Det := (Detector Data Dets).

Definition with_cfg (c : Config) (m : Det) : Det :=
  {| cfg := Some c; device := device m; CLASSES := CLASSES m;
     forward_result := forward_result m; forward_heads := forward_heads m;
     aforward_test := aforward_test m |}.
Definition with_classes (cs : list string) (m : Det) : Det :=
  {| cfg := cfg m; device := device m; CLASSES := Some cs;
     forward_result := forward_result m; forward_heads := forward_heads m;
     aforward_test := aforward_test m |}.
Definition with_device (d : string) (m : Det) : Det :=
  {| cfg := cfg m; device := d; CLASSES := CLASSES m;
     forward_result := forward_result m; forward_heads := forward_heads m;
     aforward_test := aforward_test m |}.

(** [next(model.parameters()).is_cuda]. *)
Definition is_cuda (m : Det) : bool :=
  negb (String.eqb (device m) "cpu").

(** *** Lines 15-47 *)

(** [model.to(device)]: moving the parameters to a CUDA device needs one. *)
Definition model_to (model : Det) (device : string) : M Det := λ w,
  if negb (String.eqb device "cpu") && negb (cuda_available w)
  then (Raise CudaError, w)
  else (Ok (with_device device model), emit (EvTo device) w).

(** Lines 27-31. *)
Definition check_config (config : config_arg) : M Config :=
  match config with
  | AValue (VStr path) => lift (Config_fromfile F path)
  | AConfig c => ret c
  | _ => raise (TypeError ("config must be a filename or Config object, "
                           +:+ "but got " +:+ arg_type_repr config))
  end.

Definition init_detector (config : config_arg) (checkpoint : option string)
    (device : string) : M Det :=
  config ← check_config config;
  let config := set_pretrained None config in
  model ← call EvBuild (build_detector F config);
  model ←
    match checkpoint with
    | Some path =>
        let map_loc := if String.eqb device "cpu" then Some "cpu" else None in
        meta ← call (EvLoadCheckpoint path) (load_checkpoint F model path map_loc);
        match meta with
        | Some classes => ret (with_classes classes model)
        | None =>
            warn ("Class names are not saved in the checkpoint's "
                  +:+ "meta data, use COCO classes by default.");;
            ret (with_classes (get_classes_coco F) model)
        end
    | None => ret model
    end;
  let model := with_cfg config model in
  model ← model_to model device;
  modify (emit EvEval);;
  ret model.

(** *** Lines 50-74: [LoadImage.__call__] *)

Definition getitem (results : dict) (key : string) : result value :=
  match results !! key with
  | Some v => Ok v
  | None => Raise (KeyError key)
  end.

Definition LoadImage_call (results : dict) : result dict :=
  v ← getitem results "img";
  results ←
    (if is_str v then
       v1 ← getitem results "img";
       let results := <["filename" := v1]> results in
       v2 ← getitem results "img";
       Ok (<["ori_filename" := v2]> results)
     else
       let results := <["filename" := VNone]> results in
       Ok (<["ori_filename" := VNone]> results));
  v ← getitem results "img";
  img ← imread F v;
  let results := <["img" := img]> results in
  let results := <["img_fields" := VList [VStr "img"]]> results in
  s ← get_shape img;
  let results := <["img_shape" := s]> results in
  s ← get_shape img;
  let results := <["ori_shape" := s]> results in
  Ok results.

(** *** Lines 77-161 *)

(** Lines 103-108. *)
Definition rewrite_for_cpu (m : module_) : module_ :=
  if is_roi m then
    if negb (aligned m) then
      {| is_roi := is_roi m; aligned := aligned m; use_torchvision := true |}
    else m
  else m.

(** Lines 92-97: the pipeline starts with [LoadImage()] and goes on with
    the transforms of the config but the first. *)
Definition prepare (c : Config) (img : value) : result Data :=
  let data : dict := {[ "img" := img ]} in
  data ← LoadImage_call data;
  rest_pipeline F (drop 1 (pipeline c)) data.

(** The detector runs in whatever grad mode is current. *)
Definition forward {A} (f : Data → result A) (data : Data) : M A := λ w,
  (f data, emit (EvForward (grad_enabled w)) w).
Definition aforward {A} (f : Data → result A) (data : Data) : M A := λ w,
  (f data, emit (EvAForward (grad_enabled w)) w).

Definition get_cfg (model : Det) : M Config :=
  match cfg model with
  | Some c => ret c
  | None => raise (AttributeError "object has no attribute 'cfg'")
  end.

Definition inference_detector (model : Det) (img : value) : M (Dets * R) :=
  cfg ← get_cfg model;
  let device := device model in
  data ← lift (prepare cfg img);
  data ←
    (if is_cuda model then
       lift (scatter F data device)
     else
       modify (λ w, set_modules (rewrite_for_cpu <$> modules w) w);;
       warn "We set use_torchvision=True in CPU mode.";;
       ret (img_metas_data F data));
  no_grad (
    tensor_cuda;;
    let data := img_to_cuda F data in
    let data := img_as_x F data in
    result ← forward (forward_result model) data;
    heads ← forward (forward_heads model) data;
    let '(y_head_f_1, y_head_f_2, y_head_cls) := heads in
    uncertainty_single ←
      lift (uncertainty_of_heads (uncertainty_type cfg) (k cfg)
              y_head_f_1 y_head_f_2);
    ret (result, uncertainty_single)).

(** The data that reaches line 113: scattered to the device of a CUDA
    detector, unwrapped for one on the CPU. *)
Definition staged (model : Det) (data : Data) : result Data :=
  if is_cuda model then scatter F data (device model)
  else Ok (img_metas_data F data).

(** The run of [inference_detector] gets to line 123: the config is
    there, the data is prepared and staged, the host has CUDA, and the
    two calls of the detector return [result] and the heads. *)
Definition reaches_dispatch (model : Det) (img : value) (w : world)
    (c : Config) (result : Dets) (heads_1 heads_2 : list tensor2) : Prop :=
  ∃ data data' heads_cls,
    cfg model = Some c ∧ prepare c img = Ok data
    ∧ staged model data = Ok data' ∧ cuda_available w = true
    ∧ forward_result model (img_as_x F (img_to_cuda F data')) = Ok result
    ∧ forward_heads model (img_as_x F (img_to_cuda F data'))
      = Ok (heads_1, heads_2, heads_cls).

(** *** Lines 164-189 *)

Definition async_inference_detector (model : Det) (img : value) : M Dets :=
  cfg ← get_cfg model;
  let device := device model in
  data ← lift (prepare cfg img);
  data ← lift (scatter F data device);
  set_grad_enabled false;;
  result ← aforward (aforward_test model) data;
  ret result.

End Framework.

(** ** What a computation does to the grad mode and to the trace *)

(** [m] leaves the grad mode as it found it, and every event it adds to the
    trace is [ok] for the mode it started in. *)
Definition keeps_grad {A} (ok : bool → event → Prop) (m : M A) : Prop :=
  ∀ w : world,
    grad_enabled (m w).2 = grad_enabled w
    ∧ ∃ evs, trace (m w).2 = trace w ++ evs ∧ Forall (ok (grad_enabled w)) evs.

(** Among the events [evs] a forward pass comes only after a tensor was
    moved to CUDA. *)
Definition cuda_before_forward (evs : list event) : Prop :=
  ∀ g, EvForward g ∈ evs →
    ∃ pre post, evs = pre ++ EvCuda :: post ∧ ∀ g', EvForward g' ∉ pre.

(** If the event is a forward pass, it ran in grad mode [mode]. *)
Definition forward_in_mode (mode : bool) (e : event) : Prop :=
  ∀ g, e = EvForward g → g = mode.
(** If the event is a forward pass, it ran with the grad mode off. *)
Definition forward_without_grad (mode : bool) (e : event) : Prop :=
  ∀ g, e = EvForward g → g = false.

End Inference.

(* ===================================================================== *)
(** * A small framework to run the entry points on                        *)
(* ===================================================================== *)

Module Fixture.
Import Py Tensor Uncertainty Inference.
Local Open Scope R_scope.

(** A 2 x 2 image with three channels. *)
Definition image : ndarray :=
  {| shape := [2; 2; 3]%nat; pixels := [0; 0; 0; 255; 255; 255; 7; 7; 7; 9; 9; 9]%Z |}.

(** Arrays are returned as they are, every path holds [image]. *)
Definition imread (v : value) : result value :=
  match v with
  | VArray a => Ok (VArray a)
  | VStr _ => Ok (VArray image)
  | _ => Raise (TypeError "img must be a numpy array or a str")
  end.

Definition config : Config :=
  {| pretrained := Some "torchvision://resnet50";
     pipeline := ["LoadImageFromFile"; "MultiScaleFlipAug"];
     uncertainty_type := "l2_norm";
     k := 1 |}.

(** The data of a request is the dict the pipeline made. *)
Definition rest_pipeline (transforms : list string) (d : dict) : result dict :=
  Ok d.
Definition scatter (d : dict) (device : string) : result dict := Ok d.
Definition keep (d : dict) : dict := d.

(** A detector with two samples and one feature per head. *)
Definition detector_of (c : Config) (dev : string) : Detector dict (list nat) :=
  {| cfg := Some c; device := dev; CLASSES := None;
     forward_result := λ _, Ok [0%nat];
     forward_heads := λ _, Ok ([[[0]; [1]]], [[[0]; [0]]], []);
     aforward_test := λ _, Ok [0%nat] |}.
Definition detector : string → Detector dict (list nat) := detector_of config.

(** The same config with a metric that does not exist. *)
Definition bad_config : Config :=
  {| pretrained := None;
     pipeline := ["LoadImageFromFile"; "MultiScaleFlipAug"];
     uncertainty_type := "entropy";
     k := 1 |}.

Definition Config_fromfile (path : string) : result Config := Ok config.
Definition build_detector (c : Config) : result (Detector dict (list nat)) :=
  Ok (detector "cpu").
Definition load_checkpoint (m : Detector dict (list nat)) (path : string)
    (map_loc : option string) : result (option (list string)) := Ok None.

Definition torch : framework dict (list nat) :=
  {| Inference.Config_fromfile := Config_fromfile;
     Inference.build_detector := build_detector;
     Inference.load_checkpoint := load_checkpoint;
     get_classes_coco := ["person"; "bicycle"];
     Inference.imread := imread;
     Inference.rest_pipeline := rest_pipeline;
     Inference.scatter := scatter;
     img_metas_data := keep; img_to_cuda := keep; img_as_x := keep |}.

(** The dict [LoadImage] makes of the path of a request. *)
Definition request : dict :=
  loaded {[ "img" := VStr "demo.jpg" ]} (VStr "demo.jpg") image.

(** A host without CUDA, grad mode on, one RoI module that is not aligned. *)
Definition cpu_host : world :=
  {| grad_enabled := true; cuda_available := false;
     modules := [{| is_roi := true; aligned := false; use_torchvision := false |}];
     trace := [] |}.

Definition cuda_host : world :=
  {| grad_enabled := true; cuda_available := true;
     modules := [{| is_roi := true; aligned := false; use_torchvision := false |}];
     trace := [] |}.

End Fixture.

(* ===================================================================== *)
(** * Stages of the entry points, and more to run them on                 *)
(* ===================================================================== *)

Module Stages.
Import Py Tensor Uncertainty Inference.

(** The keys [LoadImage.__call__] writes. *)
Definition LoadImage_keys : list string :=
  ["img"; "filename"; "ori_filename"; "img_fields"; "img_shape"; "ori_shape"].

(** Lines 34-43 in the trace: the checkpoint is loaded, and the warning
    follows when its meta data holds no classes. *)
Definition checkpoint_events (checkpoint : option string)
    (loaded : option (list string)) : list event :=
  match checkpoint, loaded with
  | None, _ => []
  | Some path, Some _ => [EvLoadCheckpoint path]
  | Some path, None =>
      [EvLoadCheckpoint path;
       EvWarn "Class names are not saved in the checkpoint's meta data, use COCO classes by default."]
  end.

(** Lines 98-111 in the trace: only the CPU branch warns. *)
Definition staging_events {Data Dets : Type} (model : Detector Data Dets) :
    list event :=
  if is_cuda model then []
  else [EvWarn "We set use_torchvision=True in CPU mode."].

End Stages.

Module MoreFixture.
Import Py Tensor Uncertainty Inference.
Local Open Scope R_scope.

(** A framework in which the detector of the config is not registered. *)
Definition unregistered : framework dict (list nat) :=
  {| Config_fromfile := Fixture.Config_fromfile;
     build_detector := λ _, Raise (External "MIAOD is not in the models registry");
     load_checkpoint := Fixture.load_checkpoint;
     get_classes_coco := ["person"; "bicycle"];
     imread := Fixture.imread;
     rest_pipeline := Fixture.rest_pipeline;
     scatter := Fixture.scatter;
     img_metas_data := Fixture.keep; img_to_cuda := Fixture.keep;
     img_as_x := Fixture.keep |}.

(** A framework in which no checkpoint can be read. *)
Definition unreadable : framework dict (list nat) :=
  {| Config_fromfile := Fixture.Config_fromfile;
     build_detector := Fixture.build_detector;
     load_checkpoint := λ _ _ _, Raise (External "epoch_3.pth is not a checkpoint file");
     get_classes_coco := ["person"; "bicycle"];
     imread := Fixture.imread;
     rest_pipeline := Fixture.rest_pipeline;
     scatter := Fixture.scatter;
     img_metas_data := Fixture.keep; img_to_cuda := Fixture.keep;
     img_as_x := Fixture.keep |}.

(** A detector whose first forward pass fails, and one whose second does. *)
Definition out_of_memory : Detector dict (list nat) :=
  {| cfg := Some Fixture.config; device := "cuda:0"; CLASSES := None;
     forward_result := λ _, Raise (External "CUDA out of memory");
     forward_heads := λ _, Ok ([[[0]; [1]]], [[[0]; [0]]], []);
     aforward_test := λ _, Ok [0%nat] |}.

Definition no_heads : Detector dict (list nat) :=
  {| cfg := Some Fixture.config; device := "cuda:0"; CLASSES := None;
     forward_result := λ _, Ok [0%nat];
     forward_heads := λ _, Raise (External "unexpected keyword argument 'return_box'");
     aforward_test := λ _, Ok [0%nat] |}.

(** The config of [Fixture] with another metric. *)
Definition js_config : Config :=
  {| pretrained := Some "torchvision://resnet50";
     pipeline := ["LoadImageFromFile"; "MultiScaleFlipAug"];
     uncertainty_type := "js_divergence";
     k := 2 |}.

(** What [init_detector] makes of [Fixture.config] and a checkpoint without
    classes on the CPU, and the state it leaves. *)
Definition initialised : Detector dict (list nat) :=
  {| cfg := Some (set_pretrained None Fixture.config); device := "cpu";
     CLASSES := Some ["person"; "bicycle"];
     forward_result := λ _, Ok [0%nat];
     forward_heads := λ _, Ok ([[[0]; [1]]], [[[0]; [0]]], []);
     aforward_test := λ _, Ok [0%nat] |}.

Definition after_init : world :=
  {| grad_enabled := true; cuda_available := false;
     modules := [{| is_roi := true; aligned := false; use_torchvision := false |}];
     trace := [EvBuild; EvLoadCheckpoint "epoch_3.pth";
               EvWarn "Class names are not saved in the checkpoint's meta data, use COCO classes by default.";
               EvTo "cpu"; EvEval] |}.

End MoreFixture.

(* ===================================================================== *)
(** * Facts about tensors                                                 *)
(* ===================================================================== *)

Module TensorFacts.
Import Tensor.
Local Open Scope R_scope.

(** Every tensor built from two tensors of one shape by elementwise
    operations is a single [t_zip] of the two. *)
Lemma zip_with_fst_same (r1 r2 : list R) :
  length r1 = length r2 → zip_with (λ x _, x) r1 r2 = r1.
Proof.
  revert r2; induction r1 as [|x r1 IH]; intros [|y r2] Hl; simpl in *;
    try discriminate; [done|]. f_equal. apply IH. lia.
Qed.

Lemma zip_with_snd_same (r1 r2 : list R) :
  length r1 = length r2 → zip_with (λ _ y, y) r1 r2 = r2.
Proof.
  revert r2; induction r1 as [|x r1 IH]; intros [|y r2] Hl; simpl in *;
    try discriminate; [done|]. f_equal. apply IH. lia.
Qed.

Lemma t_zip_fst (a b : tensor2) :
  same_shape a b → t_zip (λ x _, x) a b = a.
Proof.
  induction 1 as [|r1 r2 a b Hl _ IH]; [done|].
  unfold t_zip in *; simpl. by rewrite IH, zip_with_fst_same.
Qed.

Lemma t_zip_snd (a b : tensor2) :
  same_shape a b → t_zip (λ _ y, y) a b = b.
Proof.
  induction 1 as [|r1 r2 a b Hl _ IH]; [done|].
  unfold t_zip in *; simpl. by rewrite IH, zip_with_snd_same.
Qed.

Lemma zip_with_fuse (f g h : R → R → R) (r1 r2 : list R) :
  zip_with f (zip_with g r1 r2) (zip_with h r1 r2)
  = zip_with (λ x y, f (g x y) (h x y)) r1 r2.
Proof.
  revert r2; induction r1 as [|x r1 IH]; intros [|y r2]; simpl; try done.
  by rewrite IH.
Qed.

Lemma t_zip_zip (f g h : R → R → R) (a b : tensor2) :
  t_zip f (t_zip g a b) (t_zip h a b)
  = t_zip (λ x y, f (g x y) (h x y)) a b.
Proof.
  unfold t_zip. revert b; induction a as [|r1 a IH]; intros [|r2 b]; simpl;
    try done. by rewrite IH, zip_with_fuse.
Qed.

Lemma fmap_zip_with_fuse (f : R → R) (g : R → R → R) (r1 r2 : list R) :
  f <$> zip_with g r1 r2 = zip_with (λ x y, f (g x y)) r1 r2.
Proof.
  revert r2; induction r1 as [|x r1 IH]; intros [|y r2]; simpl; try done.
  by rewrite IH.
Qed.

Lemma t_map_zip (f : R → R) (g : R → R → R) (a b : tensor2) :
  t_map f (t_zip g a b) = t_zip (λ x y, f (g x y)) a b.
Proof.
  unfold t_map, t_zip. revert b; induction a as [|r1 a IH]; intros [|r2 b];
    simpl; try done. by rewrite IH, fmap_zip_with_fuse.
Qed.

Lemma zip_with_pointwise (f g : R → R → R) (r1 r2 : list R) :
  (∀ x y, f x y = g x y) → zip_with f r1 r2 = zip_with g r1 r2.
Proof.
  intros E. revert r2; induction r1 as [|x r1 IH]; intros [|y r2]; simpl;
    try done. by rewrite IH, E.
Qed.

Lemma t_zip_pointwise (f g : R → R → R) (a b : tensor2) :
  (∀ x y, f x y = g x y) → t_zip f a b = t_zip g a b.
Proof.
  intros E. unfold t_zip. revert b; induction a as [|r1 a IH];
    intros [|r2 b]; simpl; try done.
  by rewrite IH, (zip_with_pointwise f g r1 r2 E).
Qed.

(** An expression [G] over two tensors of one shape is a [t_zip] as soon
    as it is one on the two projections. *)
Lemma t_zip_normal_form (G : tensor2 → tensor2 → tensor2) (F : R → R → R)
    (a b : tensor2) :
  same_shape a b →
  G (t_zip (λ x _, x) a b) (t_zip (λ _ y, y) a b) = t_zip F a b →
  G a b = t_zip F a b.
Proof. intros Hs HG. by rewrite t_zip_fst, t_zip_snd in HG. Qed.

(** [mean(dim=1)] of a [t_zip]: sample by sample, the sum over the
    features divided by their number. *)
Lemma mean_dim1_zip (F : R → R → R) (a b : tensor2) :
  same_shape a b →
  mean_dim1 (t_zip F a b)
  = zip_with (λ r1 r2, Rsum (zip_with F r1 r2) / INR (length r1)) a b.
Proof.
  induction 1 as [|r1 r2 a b Hl _ IH]; [done|].
  unfold mean_dim1, t_zip in *; csimpl. rewrite IH. f_equal.
  unfold mean. by rewrite length_zip_with, <- Hl, Nat.min_id.
Qed.

Lemma same_shape_refl (a : tensor2) : same_shape a a.
Proof. induction a; constructor; auto. Qed.

(** Sums and permutations. *)
Lemma Rsum_Permutation (l1 l2 : list R) : l1 ≡ₚ l2 → Rsum l1 = Rsum l2.
Proof.
  induction 1 as [|x l1 l2 _ IH| |]; simpl; lra.
Qed.

Lemma mean_Permutation (l1 l2 : list R) : l1 ≡ₚ l2 → mean l1 = mean l2.
Proof.
  intros H. unfold mean.
  by rewrite (Rsum_Permutation _ _ H), (Permutation_length H).
Qed.

Lemma Rsum_zero (l : list R) : Forall (λ x, x = 0) l → Rsum l = 0.
Proof. induction 1 as [|x l Hx _ IH]; simpl; [done|]. rewrite Hx, IH. lra. Qed.

(** The sigmoid takes its values strictly between 0 and 1. *)
Lemma sigmoid_range (x : R) : 0 < sigmoid x < 1.
Proof.
  unfold sigmoid. pose proof (exp_pos (- x)) as He.
  split.
  - apply Rdiv_lt_0_compat; lra.
  - apply (Rmult_lt_reg_r (1 + exp (- x))); [lra|].
    unfold Rdiv. rewrite Rmult_assoc, Rinv_l; lra.
Qed.

End TensorFacts.

(* ===================================================================== *)
(** * The formula dispatch                                                *)
(* ===================================================================== *)

Module DispatchFacts.
Import Py Tensor Uncertainty TensorFacts.
Local Open Scope R_scope.

(** Bring an elementwise expression over [a] and [b] to one [t_zip]. *)
Ltac fuse :=
  unfold kl_diver, t_add, t_sub, t_mul, t_div, t_neg, t_log, t_pow, t_rsub,
    t_lmul, t_rmul, t_rdiv, t_full_like;
  repeat (rewrite t_map_zip || rewrite t_zip_zip).

(** The tensor [loss_p] of each branch, entry by entry. *)
Lemma l2_norm_loss (y1 y2 : tensor2) :
  same_shape y1 y2 →
  t_pow (t_sub y1 y2) 2 = t_zip (spec_formula L2Norm) y1 y2.
Proof.
  intros H.
  apply (t_zip_normal_form (λ a b, t_pow (t_sub a b) 2) _ _ _ H).
  fuse. by apply t_zip_pointwise.
Qed.

Lemma kl_divergence_loss (y1 y2 : tensor2) :
  same_shape y1 y2 →
  t_mul y1 (t_log (t_div y1 y2)) = t_zip (spec_formula KLDivergence) y1 y2.
Proof.
  intros H.
  apply (t_zip_normal_form (λ a b, t_mul a (t_log (t_div a b))) _ _ _ H).
  fuse. by apply t_zip_pointwise.
Qed.

Lemma cross_entropy_loss (y1 y2 : tensor2) :
  same_shape y1 y2 →
  t_neg (t_add (t_mul y1 (t_log y2))
               (t_mul (t_rsub 1 y1) (t_log (t_rsub 1 y2))))
  = t_zip (spec_formula CrossEntropy) y1 y2.
Proof.
  intros H.
  apply (t_zip_normal_form
           (λ a b, t_neg (t_add (t_mul a (t_log b))
                                (t_mul (t_rsub 1 a) (t_log (t_rsub 1 b)))))
           _ _ _ H).
  fuse. by apply t_zip_pointwise.
Qed.

Lemma js_divergence_loss (y1 y2 : tensor2) :
  same_shape y1 y2 →
  t_add (t_lmul 0.5 (kl_diver y1 (t_rdiv (t_add y1 y2) 2)))
        (t_lmul 0.5 (kl_diver y2 (t_rdiv (t_add y1 y2) 2)))
  = t_zip (spec_formula JSDivergence) y1 y2.
Proof.
  intros H.
  apply (t_zip_normal_form
           (λ a b, t_add (t_lmul 0.5 (kl_diver a (t_rdiv (t_add a b) 2)))
                         (t_lmul 0.5 (kl_diver b (t_rdiv (t_add a b) 2))))
           _ _ _ H).
  fuse. apply t_zip_pointwise; intros x y. simpl. ring.
Qed.

Lemma alpha_truthy : alpha ≠ 0.
Proof. unfold alpha. lra. Qed.

Lemma focal_loss_loss (y1 y2 : tensor2) :
  same_shape y1 y2 →
  focal_loss y1 y2 = t_zip (spec_formula FocalLoss) y1 y2.
Proof.
  intros H. unfold focal_loss.
  destruct (Req_dec_T alpha 0) as [E|_]; [by destruct alpha_truthy|].
  change (Nat.eqb gamma 0) with false. cbv iota.
  apply (t_zip_normal_form
           (λ a b,
              t_mul
                (t_mul (t_add (t_rmul a alpha) (t_rmul (t_rsub 1 a) (1 - alpha)))
                       (t_pow (t_rsub 1 (t_add (t_mul a b)
                                           (t_mul (t_rsub 1 a) (t_rsub 1 b))))
                              gamma))
                (t_neg (t_add (t_mul a (t_log b))
                              (t_mul (t_rsub 1 a) (t_log (t_rsub 1 b))))))
           _ _ _ H).
  fuse. apply t_zip_pointwise; intros x y.
  unfold alpha, gamma, spec_formula, spec_cross_entropy. ring.
Qed.

Lemma spec_uncertainty_mean (m : metric) (y1 y2 : tensor2) :
  same_shape y1 y2 →
  mean_dim1 (t_zip (spec_formula m) y1 y2) = spec_uncertainty m y1 y2.
Proof. intros H. by rewrite mean_dim1_zip. Qed.

(** The dispatch reaches the branch of each of the five names. *)
Lemma uncertainty_all_N_metric (m : metric) (y1 y2 : tensor2) :
  same_shape y1 y2 →
  uncertainty_all_N (metric_name m) y1 y2
  = Ok (mean_dim1 (t_zip (spec_formula m) y1 y2)).
Proof.
  intros H. destruct m; unfold uncertainty_all_N; simpl; f_equal; f_equal.
  - by apply l2_norm_loss.
  - by apply kl_divergence_loss.
  - by apply cross_entropy_loss.
  - by apply js_divergence_loss.
  - by apply focal_loss_loss.
Qed.

(** ** C1 *)

(** C1.  For two heads of one shape and each of the five names,
    [uncertainty_all_N] is, sample by sample, the formula of that name
    summed over the features and divided by their number: [(y1 - y2)^2],
    [y1 * log (y1 / y2)], [-(y1 * log y2 + (1 - y1) * log (1 - y2))],
    [0.5 * y1 * log (y1 / m) + 0.5 * y2 * log (y2 / m)] with
    [m = (y1 + y2) / 2], and the cross-entropy weighted with alpha = 0.25
    and gamma = 2. *)
Theorem C1_formula_and_mean (m : metric) (y_head_f_1 y_head_f_2 : tensor2) :
  same_shape y_head_f_1 y_head_f_2 →
  uncertainty_all_N (metric_name m) y_head_f_1 y_head_f_2
  = Ok (spec_uncertainty m y_head_f_1 y_head_f_2).
Proof.
  intros H. rewrite uncertainty_all_N_metric by done.
  by rewrite spec_uncertainty_mean.
Qed.

Lemma C1_formula_and_mean_witness :
  same_shape [[0.5; 0.25]] [[0.25; 0.75]] ∧
  uncertainty_all_N (metric_name JSDivergence) [[0.5; 0.25]] [[0.25; 0.75]]
  = Ok (spec_uncertainty JSDivergence [[0.5; 0.25]] [[0.25; 0.75]]).
Proof.
  split; [repeat constructor|].
  apply (C1_formula_and_mean JSDivergence); repeat constructor.
Defined.

(** The reduction is the mean and not the sum: one sample with two
    features, squared differences 1 and 0. *)
Example l2_norm_is_mean_not_sum :
  uncertainty_all_N "l2_norm" [[1; 0]] [[0; 0]] = Ok [1 / 2]
  ∧ sum_dim1 (t_pow (t_sub [[1; 0]] [[0; 0]]) 2) = [1].
Proof.
  split.
  - unfold uncertainty_all_N; simpl. unfold mean; simpl. do 2 f_equal. lra.
  - simpl. f_equal. lra.
Qed.

End DispatchFacts.

(* ===================================================================== *)
(** * argsort, the slice and the top-k mean                               *)
(* ===================================================================== *)

Module TopKFacts.
Import Py Tensor Uncertainty TensorFacts.
Local Open Scope R_scope.

#[local] Instance Rle_AntiSymm : AntiSymm (=) Rle.
Proof. intros x y ??. by apply Rle_antisym. Qed.

#[local] Instance key_le_Total (u : tensor1) : Total (key_le u).
Proof.
  intros i j. unfold key_le.
  destruct (Rle_or_lt (nth i u 0) (nth j u 0)); [by left|right; lra].
Qed.

(** ** The contract of [argsort] *)

Lemma index_seq (u : tensor1) : index u (seq 0 (length u)) = u.
Proof.
  unfold index. apply list_eq; intros i. rewrite list_lookup_fmap.
  destruct (u !! i) as [x|] eqn:E.
  - rewrite lookup_seq_lt by (by eapply lookup_lt_Some). simpl.
    by rewrite (nth_lookup_Some _ _ _ _ E).
  - rewrite lookup_seq_ge; [done|]. by apply lookup_ge_None.
Qed.

Lemma is_argsort_length (u : tensor1) (arg : list nat) :
  is_argsort u arg → length arg = length u.
Proof. intros [Hp _]. by rewrite Hp, length_seq. Qed.

(** Reading [u] along its argsort gives the entries of [u], reordered. *)
Lemma is_argsort_Permutation (u : tensor1) (arg : list nat) :
  is_argsort u arg → index u arg ≡ₚ u.
Proof.
  intros [Hp _]. unfold index. rewrite Hp. fold (index u (seq 0 (length u))).
  by rewrite index_seq.
Qed.

(** The sorted entries do not depend on how ties were broken, nor on the
    order of the samples. *)
Lemma is_argsort_unique (u u' : tensor1) (arg arg' : list nat) :
  is_argsort u arg → is_argsort u' arg' → u ≡ₚ u' →
  index u arg = index u' arg'.
Proof.
  intros H H' Hp. apply (Sorted_unique Rle); [apply H|apply H'|].
  by rewrite (is_argsort_Permutation _ _ H), (is_argsort_Permutation _ _ H').
Qed.

(** The merge sort of the indices meets the contract. *)
Lemma argsort_is_argsort (u : tensor1) : is_argsort u (argsort u).
Proof.
  split; unfold argsort.
  - apply merge_sort_Permutation.
  - unfold index. apply (Sorted_fmap _ (key_le u) Rle); [done|].
    apply (Sorted_merge_sort (key_le u)).
Qed.

(** ** The slice *)

Lemma slice_from_fmap {A B} (f : A → B) (start : Z) (l : list A) :
  f <$> slice_from start l = slice_from start (f <$> l).
Proof. unfold slice_from. by rewrite fmap_drop, length_fmap. Qed.

(** [l[-k:]] with [1 <= k <= len(l)] is the last [k] elements. *)
Lemma slice_from_last {A} (k : Z) (l : list A) :
  (1 ≤ k ≤ Z.of_nat (length l))%Z →
  slice_from (- k) l = drop (length l - Z.to_nat k) l.
Proof.
  intros Hk. unfold slice_from.
  destruct (Z.ltb_spec (- k) 0); [|lia]. f_equal. lia.
Qed.

(** [l[-k:]] with [k >= len(l)], and [l[-0:]], is all of [l]. *)
Lemma slice_from_all {A} (k : Z) (l : list A) :
  (Z.of_nat (length l) ≤ k)%Z ∨ k = 0%Z → slice_from (- k) l = l.
Proof.
  intros Hk. unfold slice_from.
  destruct (Z.ltb_spec (- k) 0).
  - replace (Z.to_nat _) with 0%nat by lia. apply drop_0.
  - replace (Z.to_nat _) with 0%nat by lia. apply drop_0.
Qed.

Lemma uncertainty_single_with_sorted (arg : list nat) (u : tensor1) (k : Z) :
  uncertainty_single_with arg u k = mean (slice_from (- k) (index u arg)).
Proof. unfold uncertainty_single_with, index. by rewrite slice_from_fmap. Qed.

(** ** The top-k mean *)

(** The [k] selected entries are the [k] largest: together with the
    entries left out they are all of [u], and none left out exceeds one
    selected. *)
Lemma top_k_selected (u : tensor1) (arg : list nat) (k : Z) :
  is_argsort u arg → (1 ≤ k ≤ Z.of_nat (length u))%Z →
  let top := index u (slice_from (- k) arg) in
  let rest := index u (take (length u - Z.to_nat k) arg) in
  slice_from (- k) arg = drop (length u - Z.to_nat k) arg
  ∧ rest ++ top ≡ₚ u
  ∧ length top = Z.to_nat k
  ∧ (∀ x y, x ∈ top → y ∈ rest → y <= x)
  ∧ uncertainty_single_with arg u k = Rsum top / IZR k.
Proof.
  intros H Hk top rest. pose proof (is_argsort_length _ _ H) as Hl.
  assert (slice_from (- k) arg = drop (length u - Z.to_nat k) arg) as Hs.
  { rewrite slice_from_last by lia. by rewrite Hl. }
  assert (rest ++ top = index u arg) as Happ.
  { unfold rest, top, index. rewrite Hs, <- fmap_app. by rewrite take_drop. }
  assert (length top = Z.to_nat k) as Hlen.
  { unfold top, index. rewrite Hs, length_fmap, length_drop. lia. }
  split; [done|]. split; [|split; [done|split]].
  - rewrite Happ. by apply is_argsort_Permutation.
  - intros x y Hx Hy. destruct H as [_ Hsorted].
    apply Sorted_StronglySorted in Hsorted; [|apply _].
    rewrite <- Happ in Hsorted.
    by apply (StronglySorted_app_1_elem_of _ _ _ _ _ Hsorted).
  - unfold uncertainty_single_with. fold top. unfold mean.
    rewrite Hlen, INR_IZR_INZ, Z2Nat.id by lia. done.
Qed.

(** With every index selected the result is the mean over all samples. *)
Lemma top_k_all (u : tensor1) (arg : list nat) (k : Z) :
  is_argsort u arg → (Z.of_nat (length u) ≤ k)%Z ∨ k = 0%Z →
  slice_from (- k) arg = arg ∧ uncertainty_single_with arg u k = mean u.
Proof.
  intros H Hk. pose proof (is_argsort_length _ _ H) as Hl.
  assert (slice_from (- k) arg = arg) as Hs.
  { apply slice_from_all. lia. }
  split; [done|]. unfold uncertainty_single_with. rewrite Hs.
  apply mean_Permutation. by apply is_argsort_Permutation.
Qed.

(** The result depends on the multiset of the entries only. *)
Lemma top_k_permutation (u u' : tensor1) (arg arg' : list nat) (k : Z) :
  is_argsort u arg → is_argsort u' arg' → u ≡ₚ u' →
  uncertainty_single_with arg u k = uncertainty_single_with arg' u' k.
Proof.
  intros H H' Hp. rewrite !uncertainty_single_with_sorted.
  by rewrite (is_argsort_unique u u' arg arg').
Qed.

End TopKFacts.

(* ===================================================================== *)
(** * Identical heads                                                     *)
(* ===================================================================== *)

Module IdenticalHeadsFacts.
Import Py Tensor Uncertainty TensorFacts DispatchFacts.
Local Open Scope R_scope.

Lemma zip_with_diag (F : R → R → R) (row : list R) :
  zip_with F row row = (λ x, F x x) <$> row.
Proof. induction row as [|x row IH]; csimpl; [done|]. by rewrite IH. Qed.

Lemma t_zip_diag (F : R → R → R) (y : tensor2) :
  t_zip F y y = t_map (λ x, F x x) y.
Proof.
  unfold t_zip, t_map. induction y as [|row y IH]; csimpl; [done|].
  by rewrite IH, zip_with_diag.
Qed.

Lemma uncertainty_all_N_diag (m : metric) (y : tensor2) :
  uncertainty_all_N (metric_name m) y y
  = Ok ((λ row : list R, mean ((λ x, spec_formula m x x) <$> row)) <$> y).
Proof.
  rewrite uncertainty_all_N_metric by apply same_shape_refl.
  rewrite t_zip_diag. unfold mean_dim1, t_map.
  by rewrite <- list_fmap_compose.
Qed.

Lemma mean_zero (f : R → R) (row : list R) :
  Forall (λ x, f x = 0) row → mean (f <$> row) = 0.
Proof.
  intros H. unfold mean. rewrite Rsum_zero; [lra|]. by rewrite Forall_fmap.
Qed.

(** The three divergences vanish on the diagonal. *)
Lemma l2_norm_diag (x : R) : spec_formula L2Norm x x = 0.
Proof. simpl. ring. Qed.

Lemma kl_divergence_diag (x : R) : 0 < x → spec_formula KLDivergence x x = 0.
Proof.
  intros Hx. simpl. replace (x / x) with 1 by (field; lra).
  rewrite ln_1. ring.
Qed.

Lemma js_divergence_diag (x : R) : 0 < x → spec_formula JSDivergence x x = 0.
Proof.
  intros Hx. simpl. replace (x / ((x + x) / 2)) with 1 by (field; lra).
  rewrite ln_1. ring.
Qed.

(** The cross-entropy of [x] with itself is the binary entropy of [x], and
    the focal loss weights it. *)
Lemma cross_entropy_diag (x : R) :
  spec_formula CrossEntropy x x = binary_entropy x.
Proof. reflexivity. Qed.

Lemma focal_loss_diag (x : R) :
  spec_formula FocalLoss x x = focal_weight x * binary_entropy x.
Proof. reflexivity. Qed.

Lemma binary_entropy_half : binary_entropy (1 / 2) = ln 2.
Proof.
  unfold binary_entropy. replace (1 - 1 / 2) with (1 / 2) by lra.
  replace (1 / 2) with (/ 2) by lra. rewrite ln_Rinv by lra. lra.
Qed.

Lemma focal_weight_half : focal_weight (1 / 2) = 1 / 8.
Proof. unfold focal_weight. simpl. lra. Qed.

Lemma zero_on_diag (m : metric) :
  (∀ x, 0 < x < 1 → spec_formula m x x = 0) → zero_at_identical_heads m.
Proof.
  intros Hm y Hy. rewrite uncertainty_all_N_diag. f_equal.
  apply Forall_fmap_ext_1. eapply Forall_impl; [exact Hy|].
  intros row [_ Hrow]. apply mean_zero.
  eapply Forall_impl; [exact Hrow|]. auto.
Qed.

Lemma value_on_diag (m : metric) (f : R → R) :
  (∀ x, spec_formula m x x = f x) → value_at_identical_heads m f.
Proof.
  intros Hm y _. rewrite uncertainty_all_N_diag. f_equal.
  apply list_fmap_ext. intros _ row _. simpl. f_equal.
  apply list_fmap_ext. intros _ x _. apply Hm.
Qed.

Lemma post_sigmoid_half : post_sigmoid [[1 / 2]].
Proof. repeat constructor; [done|lra..]. Qed.

Lemma post_sigmoid_t_sigmoid (t : tensor2) :
  Forall (λ row, row ≠ []) t → post_sigmoid (t_sigmoid t).
Proof.
  intros H. unfold post_sigmoid, t_sigmoid, t_map. rewrite Forall_fmap.
  eapply Forall_impl; [exact H|]. intros row Hne. simpl. split.
  - by destruct row.
  - rewrite Forall_fmap. apply Forall_true. intros x. apply sigmoid_range.
Qed.

(** In [inference_detector] the heads go through the sigmoid first. *)
Corollary zero_after_sigmoid (m : metric) (t : tensor2) :
  zero_at_identical_heads m → Forall (λ row, row ≠ []) t →
  uncertainty_all_N (metric_name m) (t_sigmoid t) (t_sigmoid t)
  = Ok ((λ _, 0) <$> t).
Proof.
  intros Hm Ht. rewrite (Hm _ (post_sigmoid_t_sigmoid t Ht)).
  unfold t_sigmoid, t_map. by rewrite <- list_fmap_compose.
Qed.

End IdenticalHeadsFacts.

(* ===================================================================== *)
(** * The claims about the uncertainty score                              *)
(* ===================================================================== *)

Module UncertaintyClaims.
Import Py Tensor Uncertainty TensorFacts DispatchFacts TopKFacts
  IdenticalHeadsFacts.
Local Open Scope R_scope.

(** ** Fixtures: three samples and two ways to argsort their reorderings *)

Lemma is_argsort_132 : is_argsort [1; 3; 2] [0; 2; 1]%nat.
Proof.
  split.
  - simpl. apply perm_skip, perm_swap.
  - simpl. repeat constructor; lra.
Qed.


(** ** C2 *)



(** The same for the argsort the model of [inference_detector] uses. *)
Corollary uncertainty_single_mean_of_k_largest (u : tensor1) (k : Z) :
  (1 ≤ k ≤ Z.of_nat (length u))%Z →
  ∃ rest top,
    rest ++ top ≡ₚ u ∧ length top = Z.to_nat k
    ∧ (∀ x y, x ∈ top → y ∈ rest → y <= x)
    ∧ uncertainty_single u k = Rsum top / IZR k.
Proof.
  intros Hk.
  destruct (top_k_selected u (argsort u) k (argsort_is_argsort u) Hk)
    as (_ & Hp & Hl & Hle & Hm).
  eexists _, _. eauto.
Qed.

(** ** C5 *)



Corollary uncertainty_single_permutation (u u' : tensor1) (k : Z) :
  u ≡ₚ u' → uncertainty_single u k = uncertainty_single u' k.
Proof.
  intros Hp. unfold uncertainty_single.
  apply top_k_permutation; auto using argsort_is_argsort.
Qed.

(** ** C9 *)



Corollary uncertainty_single_all (u : tensor1) (k : Z) :
  (Z.of_nat (length u) ≤ k)%Z ∨ k = 0%Z → uncertainty_single u k = mean u.
Proof.
  intros Hk. apply (top_k_all u (argsort u) k); [|done].
  apply argsort_is_argsort.
Qed.

(** ** The dispatch outside and inside the five names *)

Lemma append_assoc (s1 s2 s3 : string) :
  (s1 +:+ s2) +:+ s3 = s1 +:+ (s2 +:+ s3).
Proof.
  induction s1 as [|c s1 IH]; [done|].
  change (String c ((s1 +:+ s2) +:+ s3) = String c (s1 +:+ (s2 +:+ s3))).
  by rewrite IH.
Qed.

(** The message as Python prints it. *)
Lemma invalid_type_msg_text (t : string) :
  invalid_type_msg t
  = t +:+ " is not valid uncertainty_type. List of possible uncertainty_type: ['l2_norm', 'kl_divergence', 'cross_entropy', 'js_divergence', 'focal_loss']. Change it in config parameters.".
Proof. reflexivity. Qed.

Lemma substring_of_tail (s pre post t : string) :
  substring_of s (t +:+ (pre +:+ s +:+ post)).
Proof. exists (t +:+ pre), post. by rewrite append_assoc. Qed.

Ltac listed_between pre post :=
  match goal with
  | |- substring_of ?s (?t +:+ _) =>
      change (substring_of s (t +:+ (pre +:+ s +:+ post)));
      apply substring_of_tail
  end.

Lemma invalid_type_msg_lists (t : string) :
  Forall (λ name, substring_of (repr_str name) (invalid_type_msg t))
    uncertainty_types.
Proof.
  rewrite invalid_type_msg_text. unfold uncertainty_types.
  repeat apply Forall_cons_2; [| | | | |apply Forall_nil_2].
  - listed_between
      " is not valid uncertainty_type. List of possible uncertainty_type: ["
      ", 'kl_divergence', 'cross_entropy', 'js_divergence', 'focal_loss']. Change it in config parameters.".
  - listed_between
      " is not valid uncertainty_type. List of possible uncertainty_type: ['l2_norm', "
      ", 'cross_entropy', 'js_divergence', 'focal_loss']. Change it in config parameters.".
  - listed_between
      " is not valid uncertainty_type. List of possible uncertainty_type: ['l2_norm', 'kl_divergence', "
      ", 'js_divergence', 'focal_loss']. Change it in config parameters.".
  - listed_between
      " is not valid uncertainty_type. List of possible uncertainty_type: ['l2_norm', 'kl_divergence', 'cross_entropy', "
      ", 'focal_loss']. Change it in config parameters.".
  - listed_between
      " is not valid uncertainty_type. List of possible uncertainty_type: ['l2_norm', 'kl_divergence', 'cross_entropy', 'js_divergence', "
      "]. Change it in config parameters.".
Qed.

Lemma uncertainty_all_N_invalid (t : string) (y1 y2 : tensor2) :
  t ∉ uncertainty_types →
  uncertainty_all_N t y1 y2 = Raise (ValueError (invalid_type_msg t)).
Proof.
  unfold uncertainty_types. rewrite !not_elem_of_cons.
  intros (H1 & H2 & H3 & H4 & H5 & _). unfold uncertainty_all_N.
  apply String.eqb_neq in H1, H2, H3, H4, H5.
  by rewrite H1, H2, H3, H4, H5.
Qed.

Lemma uncertainty_all_N_valid (t : string) (y1 y2 : tensor2) :
  t ∈ uncertainty_types → ∃ u, uncertainty_all_N t y1 y2 = Ok u.
Proof.
  unfold uncertainty_types. rewrite !elem_of_cons, elem_of_nil.
  intros [->|[->|[->|[->|[->|[]]]]]]; unfold uncertainty_all_N; simpl;
    eauto.
Qed.

(** ** C4 *)

(** C4 as stated fails: at one sample with one feature equal to 1/2 in
    both heads, the cross-entropy is [ln 2], above 1/2, and the focal
    loss is [ln 2 / 8], above 1/16. *)
Lemma C4_cross_entropy_focal_loss_nonzero :
  uncertainty_all_N "cross_entropy" [[1 / 2]] [[1 / 2]] = Ok [ln 2]
  ∧ uncertainty_all_N "focal_loss" [[1 / 2]] [[1 / 2]] = Ok [ln 2 / 8]
  ∧ 1 / 2 < ln 2 ∧ 1 / 16 < ln 2 / 8
  ∧ ¬ zero_at_identical_heads CrossEntropy
  ∧ ¬ zero_at_identical_heads FocalLoss.
Proof.
  assert (ln (1 / 2) = - ln 2) as Hln.
  { replace (1 / 2) with (/ 2) by lra. apply ln_Rinv. lra. }
  assert (1 - 1 / 2 = 1 / 2) as Hhalf by lra.
  pose proof ln_lt_2 as Hlt.
  assert (uncertainty_all_N "cross_entropy" [[1 / 2]] [[1 / 2]] = Ok [ln 2])
    as Hce.
  { rewrite (uncertainty_all_N_diag CrossEntropy). simpl.
    unfold mean, spec_cross_entropy; simpl. rewrite Hhalf, Hln.
    do 2 f_equal. lra. }
  assert (uncertainty_all_N "focal_loss" [[1 / 2]] [[1 / 2]] = Ok [ln 2 / 8])
    as Hfl.
  { rewrite (uncertainty_all_N_diag FocalLoss). simpl.
    unfold mean, spec_cross_entropy; simpl. rewrite Hhalf, Hln.
    do 2 f_equal. lra. }
  split; [done|]. split; [done|]. split; [lra|]. split; [lra|]. split.
  - intros Hz. specialize (Hz [[1 / 2]] post_sigmoid_half).
    change (metric_name CrossEntropy) with "cross_entropy" in Hz.
    rewrite Hce in Hz. simpl in Hz. injection Hz as Hz. lra.
  - intros Hz. specialize (Hz [[1 / 2]] post_sigmoid_half).
    change (metric_name FocalLoss) with "focal_loss" in Hz.
    rewrite Hfl in Hz. simpl in Hz. injection Hz as Hz. lra.
Qed.

(** C4, amended.  With the two heads equal and their entries strictly
    between 0 and 1, 'l2_norm', 'kl_divergence' and 'js_divergence' are
    zero on every sample.  'cross_entropy' is on every sample the mean over
    the features of the binary entropy [-(y log y + (1 - y) log (1 - y))],
    and 'focal_loss' the mean of that entropy times
    [(0.25 y + 0.75 (1 - y)) (1 - p_t)^2] with
    [p_t = y y + (1 - y) (1 - y)].  These two are not zero in general: at
    [y = 1/2] the entropy is [ln 2], above 1/2, and the weight is 1/8. *)
Theorem C4_identical_heads :
  zero_at_identical_heads L2Norm
  ∧ zero_at_identical_heads KLDivergence
  ∧ zero_at_identical_heads JSDivergence
  ∧ value_at_identical_heads CrossEntropy binary_entropy
  ∧ value_at_identical_heads FocalLoss
      (λ y, focal_weight y * binary_entropy y)
  ∧ binary_entropy (1 / 2) = ln 2
  ∧ focal_weight (1 / 2) = 1 / 8
  ∧ 1 / 2 < ln 2.
Proof.
  split; [|split; [|split; [|split; [|split; [|split; [|split]]]]]].
  - apply zero_on_diag. intros x _. apply l2_norm_diag.
  - apply zero_on_diag. intros x Hx. apply kl_divergence_diag. lra.
  - apply zero_on_diag. intros x Hx. apply js_divergence_diag. lra.
  - apply value_on_diag, cross_entropy_diag.
  - apply value_on_diag, focal_loss_diag.
  - apply binary_entropy_half.
  - apply focal_weight_half.
  - pose proof ln_lt_2. lra.
Qed.

Lemma C4_identical_heads_witness :
  uncertainty_all_N "js_divergence" [[1 / 2]] [[1 / 2]] = Ok [0]
  ∧ uncertainty_all_N "cross_entropy" [[1 / 2]] [[1 / 2]]
    = Ok [mean [binary_entropy (1 / 2)]]
  ∧ uncertainty_all_N "focal_loss" [[1 / 2]] [[1 / 2]]
    = Ok [mean [focal_weight (1 / 2) * binary_entropy (1 / 2)]].
Proof.
  destruct C4_identical_heads as (_ & _ & Hjs & Hce & Hfl & _).
  split; [|split].
  - exact (Hjs [[1 / 2]] post_sigmoid_half).
  - exact (Hce [[1 / 2]] post_sigmoid_half).
  - exact (Hfl [[1 / 2]] post_sigmoid_half).
Defined.

End UncertaintyClaims.

(* ===================================================================== *)
(** * [LoadImage.__call__]                                                *)
(* ===================================================================== *)

Module LoadImageFacts.
Import Py Inference.

Section Framework.
Context {Data Dets : Type} (F : framework Data Dets).

Lemma getitem_Some (results : dict) (key : string) (v : value) :
  results !! key = Some v → getitem results key = Ok v.
Proof. intros H. unfold getitem. by rewrite H. Qed.

Lemma get_shape_Ok (img s : value) :
  get_shape img = Ok s → ∃ a, img = VArray a ∧ s = VTuple (shape a).
Proof. destruct img; simpl; intros; simplify_eq; eauto. Qed.

(** The call returns exactly when the dict has an ['img'] entry from which
    [imread] gets an array. *)
Ltac run_getitem v :=
  repeat (rewrite (getitem_Some _ "img" v)
            by (by rewrite ?lookup_insert_ne); simpl).

Lemma LoadImage_call_returns (results : dict) (v : value) (a : ndarray) :
  results !! "img" = Some v → imread F v = Ok (VArray a) →
  LoadImage_call F results = Ok (loaded results v a).
Proof.
  intros Hv Hr. unfold LoadImage_call, loaded, filename_of.
  run_getitem v. destruct (is_str v); simpl; run_getitem v;
    by rewrite Hr.
Qed.

Lemma LoadImage_call_Ok (results results' : dict) :
  LoadImage_call F results = Ok results' →
  ∃ v a, results !! "img" = Some v ∧ imread F v = Ok (VArray a)
         ∧ results' = loaded results v a.
Proof.
  intros H. destruct (results !! "img") as [v|] eqn:Hv.
  - destruct (imread F v) as [img|e] eqn:Hr.
    + destruct (get_shape img) as [s|e] eqn:Hg.
      * destruct (get_shape_Ok _ _ Hg) as (a & -> & ->).
        exists v, a. rewrite (LoadImage_call_returns _ _ _ Hv Hr) in H.
        by simplify_eq.
      * exfalso. revert H. unfold LoadImage_call. run_getitem v.
        destruct (is_str v); simpl; run_getitem v; rewrite Hr; simpl;
          by rewrite Hg.
    + exfalso. revert H. unfold LoadImage_call. run_getitem v.
      destruct (is_str v); simpl; run_getitem v; by rewrite Hr.
  - unfold LoadImage_call, getitem in H. by rewrite Hv in H.
Qed.

Lemma loaded_lookups (results : dict) (v : value) (a : ndarray) :
  let results' := loaded results v a in
  results' !! "img" = Some (VArray a)
  ∧ results' !! "img_fields" = Some (VList [VStr "img"])
  ∧ results' !! "img_shape" = Some (VTuple (shape a))
  ∧ results' !! "ori_shape" = Some (VTuple (shape a))
  ∧ results' !! "filename" = Some (filename_of v)
  ∧ results' !! "ori_filename" = Some (filename_of v).
Proof. unfold loaded. repeat split; by simplify_map_eq. Qed.

End Framework.

End LoadImageFacts.

(* ===================================================================== *)
(** * The grad mode                                                       *)
(* ===================================================================== *)

Module GradFacts.
Import Py Tensor Uncertainty Inference.

(** ** The rules of [keeps_grad] *)

Lemma keeps_grad_silent {A} (ok : bool → event → Prop) (m : M A) :
  (∀ w, (m w).2 = w) → keeps_grad ok m.
Proof.
  intros Hm w. rewrite Hm. split; [done|]. exists []. by rewrite app_nil_r.
Qed.

Lemma keeps_grad_ret {A} ok (a : A) : keeps_grad ok (ret a).
Proof. by apply keeps_grad_silent. Qed.

Lemma keeps_grad_raise {A} ok (e : exn) : keeps_grad ok (raise (A:=A) e).
Proof. by apply keeps_grad_silent. Qed.

Lemma keeps_grad_lift {A} ok (r : result A) : keeps_grad ok (lift r).
Proof. by apply keeps_grad_silent. Qed.

Lemma keeps_grad_emit (ok : bool → event → Prop) (e : event) :
  (∀ mode, ok mode e) → keeps_grad ok (modify (emit e)).
Proof. intros He w. split; [done|]. exists [e]. split; [done|]. by constructor. Qed.

Lemma keeps_grad_bind {A B} ok (m : M A) (f : A → M B) :
  keeps_grad ok m → (∀ a, keeps_grad ok (f a)) → keeps_grad ok (bind m f).
Proof.
  intros Hm Hf w. unfold bind. destruct (Hm w) as (Hg & evs & Ht & Hok).
  destruct (m w) as [[a|e] w1]; simpl in *.
  - destruct (Hf a w1) as (Hg' & evs' & Ht' & Hok').
    split; [congruence|]. exists (evs ++ evs').
    rewrite Ht', Ht, app_assoc. split; [done|].
    apply Forall_app. split; [done|]. by rewrite <- Hg.
  - eauto.
Qed.

Lemma keeps_grad_forward {Data A} (f : Data → result A) (data : Data) :
  keeps_grad forward_in_mode (forward f data).
Proof.
  intros w. split; [done|]. exists [EvForward (grad_enabled w)].
  split; [done|]. constructor; [|done]. intros g Hg. by simplify_eq.
Qed.

Lemma keeps_grad_tensor_cuda : keeps_grad forward_in_mode tensor_cuda.
Proof.
  intros w. unfold tensor_cuda. destruct (cuda_available w); simpl.
  - split; [done|]. exists [EvCuda]. split; [done|].
    constructor; [|done]. intros g Hg. discriminate.
  - split; [done|]. exists []. by rewrite app_nil_r.
Qed.

(** The scope restores the mode whatever the body does to it, and the
    forward passes of a body that does not touch the mode run without
    grad. *)
Lemma no_grad_restores {A} (body : M A) (w : world) :
  grad_enabled (no_grad body w).2 = grad_enabled w.
Proof. unfold no_grad. by destruct (body (set_grad false w)). Qed.

Lemma keeps_grad_no_grad {A} (body : M A) :
  keeps_grad forward_in_mode body →
  keeps_grad forward_without_grad (no_grad body).
Proof.
  intros Hb w. split; [apply no_grad_restores|].
  destruct (Hb (set_grad false w)) as (_ & evs & Ht & Hok).
  unfold no_grad. destruct (body (set_grad false w)) as [r w']; simpl in *.
  eauto.
Qed.

Section Framework.
Context {Data Dets : Type} (F : framework Data Dets).

Lemma keeps_grad_get_cfg ok (model : Detector Data Dets) :
  keeps_grad ok (get_cfg model).
Proof.
  unfold get_cfg. destruct (cfg model);
    [apply keeps_grad_ret|apply keeps_grad_raise].
Qed.

Lemma keeps_grad_modules ok (f : list module_ → list module_) :
  keeps_grad ok (modify (λ w, set_modules (f (modules w)) w)).
Proof. intros w. split; [done|]. exists []. by rewrite app_nil_r. Qed.

Lemma keeps_grad_inference_detector (model : Detector Data Dets) (img : value) :
  keeps_grad forward_without_grad (inference_detector F model img).
Proof.
  unfold inference_detector.
  apply keeps_grad_bind; [apply keeps_grad_get_cfg|]. intros c.
  apply keeps_grad_bind; [apply keeps_grad_lift|]. intros data.
  apply keeps_grad_bind.
  { destruct (is_cuda model); [apply keeps_grad_lift|].
    apply keeps_grad_bind; [apply keeps_grad_modules|]. intros _.
    apply keeps_grad_bind; [|intros _; apply keeps_grad_ret].
    apply keeps_grad_emit. intros mode g Hg. discriminate. }
  intros data'. apply keeps_grad_no_grad.
  apply keeps_grad_bind; [apply keeps_grad_tensor_cuda|]. intros _.
  apply keeps_grad_bind; [apply keeps_grad_forward|]. intros result.
  apply keeps_grad_bind; [apply keeps_grad_forward|].
  intros [[y1 y2] ycls].
  apply keeps_grad_bind; [apply keeps_grad_lift|]. intros u.
  apply keeps_grad_ret.
Qed.

(** The asynchronous variant switches the mode off and leaves it off. *)
Lemma async_inference_detector_run (model : Detector Data Dets) (img : value)
    (c : Config) (data data' : Data) (w : world) :
  cfg model = Some c → prepare F c img = Ok data →
  scatter F data (device model) = Ok data' →
  async_inference_detector F model img w
  = (aforward_test model data',
     emit (EvAForward false) (set_grad false w)).
Proof.
  intros Hc Hp Hs. unfold async_inference_detector, get_cfg.
  rewrite Hc. unfold mbind, M_bind, bind, mret, M_ret, ret, lift; simpl.
  rewrite Hp, Hs. simpl. by destruct (aforward_test model data').
Qed.

End Framework.
End GradFacts.

(* ===================================================================== *)
(** * Runs of [init_detector] and [inference_detector]                    *)
(* ===================================================================== *)

Module RunFacts.
Import Py Tensor Uncertainty Inference.

Section Framework.
Context {Data Dets : Type} (F : framework Data Dets).

Ltac run :=
  unfold inference_detector, async_inference_detector,
    init_detector, check_config, model_to,
    set_grad_enabled, get_cfg, no_grad, tensor_cuda, forward, aforward,
    call, warn, modify, lift, raise, mbind, M_bind, bind, mret, M_ret, ret;
  simpl.

(** No forward pass among a few explicit events. *)
Ltac no_forward_among :=
  let Hin := fresh in
  intros ? Hin;
  repeat (apply elem_of_cons in Hin as [Hin|Hin]; [discriminate|]);
  by apply elem_of_nil in Hin.

(** *** [init_detector] *)

Lemma check_config_str (path : string) (w : world) :
  check_config F (AValue (VStr path)) w = (Config_fromfile F path, w).
Proof. done. Qed.

Lemma check_config_Config (c : Config) (w : world) :
  check_config F (AConfig c) w = (Ok c, w).
Proof. done. Qed.

Lemma check_config_rejects (config : config_arg) (w : world) :
  accepted_config config = false →
  check_config F config w
  = (Raise (TypeError ("config must be a filename or Config object, but got "
                       +:+ arg_type_repr config)), w).
Proof. destruct config as [[]|]; simpl; intros; by simplify_eq. Qed.

Lemma init_detector_rejects (config : config_arg) (checkpoint : option string)
    (device : string) (w : world) :
  accepted_config config = false →
  init_detector F config checkpoint device w
  = (Raise (TypeError ("config must be a filename or Config object, but got "
                       +:+ arg_type_repr config)), w).
Proof.
  intros H. unfold init_detector, mbind, M_bind, bind.
  by rewrite check_config_rejects.
Qed.

(** Once the config is there, [build_detector] is called. *)
Lemma init_detector_builds (config : config_arg) (c : Config)
    (checkpoint : option string) (device : string) (w : world) :
  check_config F config w = (Ok c, w) →
  EvBuild ∈ trace (init_detector F config checkpoint device w).2.
Proof.
  intros H. unfold init_detector, mbind, M_bind, bind. rewrite H.
  run. repeat case_match; simplify_eq/=; set_solver.
Qed.

(** *** [inference_detector] *)

Lemma inference_detector_needs_cuda (model : Detector Data Dets) (img : value)
    (w : world) :
  cuda_available w = false →
  ∃ e, (inference_detector F model img w).1 = Raise e
       ∧ ∃ evs, trace (inference_detector F model img w).2 = trace w ++ evs
                ∧ ∀ g, EvForward g ∉ evs.
Proof.
  intros Hc. run.
  destruct (cfg model) as [c|]; simpl.
  2:{ eexists; split; [done|]. exists []. rewrite app_nil_r.
      split; [done|]. no_forward_among. }
  destruct (prepare F c img) as [data|e]; simpl.
  2:{ eexists; split; [done|]. exists []. rewrite app_nil_r.
      split; [done|]. no_forward_among. }
  destruct (is_cuda model); simpl.
  - destruct (scatter F data (device model)) as [data'|e]; simpl; rewrite ?Hc; simpl.
    + eexists; split; [done|]. exists []. rewrite app_nil_r.
      split; [done|]. no_forward_among.
    + eexists; split; [done|]. exists []. rewrite app_nil_r.
      split; [done|]. no_forward_among.
  - rewrite Hc; simpl. eexists; split; [done|]. eexists. split; [done|].
    no_forward_among.
Qed.

Lemma inference_detector_cpu_run (model : Detector Data Dets) (img : value)
    (c : Config) (data : Data) (w : world) :
  cfg model = Some c → prepare F c img = Ok data →
  is_cuda model = false → cuda_available w = false →
  inference_detector F model img w
  = (Raise CudaError,
     emit (EvWarn "We set use_torchvision=True in CPU mode.")
       (set_modules (rewrite_for_cpu <$> modules w) w)).
Proof.
  intros Hcfg Hp Hm Hc. run. rewrite Hcfg; simpl. rewrite Hp; simpl.
  rewrite Hm; simpl. rewrite Hc; simpl. done.
Qed.

(** A run that gets through the forward passes ends with the score of
    the heads. *)
Lemma inference_detector_result (model : Detector Data Dets) (img : value)
    (w : world) (c : Config) (data data' : Data) (result : Dets)
    (h1 h2 hc : list tensor2) :
  cfg model = Some c → prepare F c img = Ok data →
  staged F model data = Ok data' → cuda_available w = true →
  forward_result model (img_as_x F (img_to_cuda F data')) = Ok result →
  forward_heads model (img_as_x F (img_to_cuda F data')) = Ok (h1, h2, hc) →
  (inference_detector F model img w).1
  = (u ← uncertainty_of_heads (uncertainty_type c) (k c) h1 h2;
     Ok (result, u)).
Proof.
  intros Hcfg Hp Hs Hc Hr Hh. unfold staged in Hs. run.
  rewrite Hcfg; simpl. rewrite Hp; simpl.
  destruct (is_cuda model); simpl.
  - rewrite Hs; simpl. rewrite Hc; simpl. rewrite Hr, Hh; simpl.
    by destruct (uncertainty_of_heads _ _ _ _).
  - simplify_eq. rewrite Hc; simpl. rewrite Hr, Hh; simpl.
    by destruct (uncertainty_of_heads _ _ _ _).
Qed.

Lemma cuda_before_forward_nil : cuda_before_forward [].
Proof. intros g Hg. by apply elem_of_nil in Hg. Qed.

Lemma cuda_before_forward_quiet (evs : list event) :
  (∀ g, EvForward g ∉ evs) → cuda_before_forward evs.
Proof. intros H g Hg. by destruct (H g). Qed.

Lemma cuda_before_forward_after (pre post : list event) :
  (∀ g, EvForward g ∉ pre) → cuda_before_forward (pre ++ EvCuda :: post).
Proof. intros H g _. eauto. Qed.

Lemma inference_detector_cuda_first (model : Detector Data Dets) (img : value)
    (w : world) :
  ∃ evs, trace (inference_detector F model img w).2 = trace w ++ evs
         ∧ cuda_before_forward evs.
Proof.
  run.
  destruct (cfg model) as [c|]; simpl.
  2:{ exists []. rewrite app_nil_r. auto using cuda_before_forward_nil. }
  destruct (prepare F c img) as [data|e]; simpl.
  2:{ exists []. rewrite app_nil_r. auto using cuda_before_forward_nil. }
  destruct (is_cuda model); simpl.
  - destruct (scatter F data (device model)) as [data'|e]; simpl.
    2:{ exists []. rewrite app_nil_r. auto using cuda_before_forward_nil. }
    destruct (cuda_available w); simpl.
    2:{ exists []. rewrite app_nil_r. auto using cuda_before_forward_nil. }
    repeat case_match; simplify_eq/=; rewrite <- ?app_assoc;
      (eexists; split; [reflexivity|]);
      apply (cuda_before_forward_after []); no_forward_among.
  - destruct (cuda_available w); simpl.
    2:{ eexists. split; [done|]. apply cuda_before_forward_quiet.
        no_forward_among. }
    repeat case_match; simplify_eq/=; rewrite <- ?app_assoc;
      (eexists; split; [reflexivity|]);
      apply (cuda_before_forward_after [_]); no_forward_among.
Qed.

End Framework.
End RunFacts.

(* ===================================================================== *)
(** * The claims about the entry points                                   *)
(* ===================================================================== *)

Module InferenceClaims.
Import Py Tensor Uncertainty Inference LoadImageFacts GradFacts RunFacts.

(** ** C3 *)

(** C3.  In a run of [inference_detector] that gets to the dispatch, a
    [cfg.uncertainty_type] outside the five names makes the call raise
    the [ValueError] whose message starts with the value and holds the
    [repr] of each of the five valid names; a value among the five makes
    the call return. *)
Theorem C3_invalid_type_value_error {Data Dets : Type}
    (F : framework Data Dets) (model : Detector Data Dets) (img : value)
    (w : world) (c : Config) (result : Dets) (heads_1 heads_2 : list tensor2) :
  reaches_dispatch F model img w c result heads_1 heads_2 →
  (uncertainty_type c ∉ uncertainty_types →
     (inference_detector F model img w).1
     = Raise (ValueError (invalid_type_msg (uncertainty_type c)))
     ∧ (∃ rest, invalid_type_msg (uncertainty_type c)
                = uncertainty_type c +:+ rest)
     ∧ Forall (λ name, substring_of (repr_str name)
                         (invalid_type_msg (uncertainty_type c)))
         uncertainty_types)
  ∧ (uncertainty_type c ∈ uncertainty_types →
     ∃ u, (inference_detector F model img w).1 = Ok (result, u)).
Proof.
  intros (data & data' & hc & Hcfg & Hp & Hs & Hc & Hr & Hh).
  rewrite (inference_detector_result F model img w c data data' result
             heads_1 heads_2 hc) by done.
  unfold uncertainty_of_heads. split.
  - intros Ht. rewrite UncertaintyClaims.uncertainty_all_N_invalid by done.
    split; [done|]. split.
    + eexists. apply UncertaintyClaims.invalid_type_msg_text.
    + apply UncertaintyClaims.invalid_type_msg_lists.
  - intros Ht.
    destruct (UncertaintyClaims.uncertainty_all_N_valid (uncertainty_type c)
                (t_sigmoid (cat0 heads_1)) (t_sigmoid (cat0 heads_2)) Ht)
      as [u ->].
    simpl. eauto.
Qed.

Lemma C3_invalid_type_value_error_witness :
  (inference_detector Fixture.torch
     (Fixture.detector_of Fixture.bad_config "cuda:0") (VStr "demo.jpg")
     Fixture.cuda_host).1
  = Raise (ValueError "entropy is not valid uncertainty_type. List of possible uncertainty_type: ['l2_norm', 'kl_divergence', 'cross_entropy', 'js_divergence', 'focal_loss']. Change it in config parameters.")
  ∧ ∃ u, (inference_detector Fixture.torch (Fixture.detector "cuda:0")
            (VStr "demo.jpg") Fixture.cuda_host).1 = Ok ([0%nat], u).
Proof.
  split.
  - apply (C3_invalid_type_value_error Fixture.torch
             (Fixture.detector_of Fixture.bad_config "cuda:0")
             (VStr "demo.jpg") Fixture.cuda_host Fixture.bad_config [0%nat]
             [[[0%R]; [1%R]]] [[[0%R]; [0%R]]]).
    + exists Fixture.request, Fixture.request, []. repeat split; reflexivity.
    + simpl. unfold uncertainty_types. rewrite !not_elem_of_cons.
      repeat split; try discriminate. apply not_elem_of_nil.
  - apply (C3_invalid_type_value_error Fixture.torch
             (Fixture.detector "cuda:0")
             (VStr "demo.jpg") Fixture.cuda_host Fixture.config [0%nat]
             [[[0%R]; [1%R]]] [[[0%R]; [0%R]]]).
    + exists Fixture.request, Fixture.request, []. repeat split; reflexivity.
    + apply list_elem_of_here.
Defined.

(** ** C6 *)

(** C6.  A [config] that is neither a [str] nor a [Config] makes
    [init_detector] raise the [TypeError] with nothing done: the state is
    as before, so no detector was built.  For a [str] the check hands
    over to [Config.fromfile], for a [Config] it returns it, and in both
    cases, once the config is there, [build_detector] is called. *)
Theorem C6_config_type_error {Data Dets : Type} (F : framework Data Dets)
    (config : config_arg) (checkpoint : option string) (device : string)
    (w : world) :
  (accepted_config config = false →
     init_detector F config checkpoint device w
     = (Raise (TypeError ("config must be a filename or Config object, but got "
                          +:+ arg_type_repr config)), w))
  ∧ (∀ path, config = AValue (VStr path) →
       check_config F config w = (Config_fromfile F path, w)
       ∧ (∀ c, Config_fromfile F path = Ok c →
            EvBuild ∈ trace (init_detector F config checkpoint device w).2))
  ∧ (∀ c, config = AConfig c →
       check_config F config w = (Ok c, w)
       ∧ EvBuild ∈ trace (init_detector F config checkpoint device w).2).
Proof.
  split; [apply init_detector_rejects|]. split.
  - intros path ->. split; [done|]. intros c Hc.
    apply (init_detector_builds F _ c). by rewrite check_config_str, Hc.
  - intros c ->. split; [done|]. by apply (init_detector_builds F _ c).
Qed.

Lemma C6_config_type_error_witness :
  init_detector Fixture.torch (AValue (VInt 3)) None "cpu" Fixture.cpu_host
  = (Raise (TypeError "config must be a filename or Config object, but got <class 'int'>"),
     Fixture.cpu_host)
  ∧ EvBuild ∈ trace (init_detector Fixture.torch (AValue (VStr "configs/MIAOD.py"))
                       None "cpu" Fixture.cpu_host).2
  ∧ EvBuild ∈ trace (init_detector Fixture.torch (AConfig Fixture.config)
                       None "cpu" Fixture.cpu_host).2.
Proof.
  split; [|split].
  - apply (C6_config_type_error Fixture.torch (AValue (VInt 3)) None "cpu"
             Fixture.cpu_host). reflexivity.
  - apply (C6_config_type_error Fixture.torch
             (AValue (VStr "configs/MIAOD.py")) None "cpu" Fixture.cpu_host)
      with (path := "configs/MIAOD.py") (c := Fixture.config); reflexivity.
  - apply (C6_config_type_error Fixture.torch (AConfig Fixture.config) None
             "cpu" Fixture.cpu_host) with (c := Fixture.config). reflexivity.
Defined.

(** ** C7 *)

(** C7.  Whatever [inference_detector] returns or raises, the grad mode
    afterwards is the one before, and every forward pass it made ran with
    the mode off.  [async_inference_detector], once the data is prepared
    and scattered, switches the mode off, runs the forward pass and
    returns with the mode still off, whatever it was before. *)
Theorem C7_grad_mode {Data Dets : Type} (F : framework Data Dets)
    (model : Detector Data Dets) (img : value) (w : world) :
  (grad_enabled (inference_detector F model img w).2 = grad_enabled w
   ∧ ∃ evs, trace (inference_detector F model img w).2 = trace w ++ evs
            ∧ Forall (λ e, ∀ g, e = EvForward g → g = false) evs)
  ∧ (∀ c data data',
       cfg model = Some c → prepare F c img = Ok data →
       scatter F data (device model) = Ok data' →
       async_inference_detector F model img w
       = (aforward_test model data', emit (EvAForward false) (set_grad false w))
       ∧ grad_enabled (async_inference_detector F model img w).2 = false).
Proof.
  split.
  - apply (keeps_grad_inference_detector F model img w).
  - intros c data data' Hc Hp Hs.
    by rewrite (async_inference_detector_run F model img c data data' w).
Qed.

Lemma C7_grad_mode_witness :
  grad_enabled Fixture.cuda_host = true
  ∧ grad_enabled
      (inference_detector Fixture.torch (Fixture.detector "cuda:0")
         (VStr "demo.jpg") Fixture.cuda_host).2 = true
  ∧ grad_enabled
      (async_inference_detector Fixture.torch (Fixture.detector "cuda:0")
         (VStr "demo.jpg") Fixture.cuda_host).2 = false.
Proof.
  split; [reflexivity|]. split.
  - apply (C7_grad_mode Fixture.torch (Fixture.detector "cuda:0")
             (VStr "demo.jpg") Fixture.cuda_host).
  - apply (C7_grad_mode Fixture.torch (Fixture.detector "cuda:0")
             (VStr "demo.jpg") Fixture.cuda_host)
      with (c := Fixture.config) (data := Fixture.request)
           (data' := Fixture.request); reflexivity.
Defined.

(** ** C8 *)

(** C8.  In every run of [inference_detector] a forward pass comes only
    after the image was moved to CUDA.  On a host without CUDA the call
    raises and no forward pass is made; with a detector on the CPU it
    takes the CPU branch first, which rewrites the RoI modules and warns,
    and then raises at the move to CUDA. *)
Theorem C8_cuda_unconditional {Data Dets : Type} (F : framework Data Dets)
    (model : Detector Data Dets) (img : value) (w : world) :
  (∃ evs, trace (inference_detector F model img w).2 = trace w ++ evs
          ∧ cuda_before_forward evs)
  ∧ (cuda_available w = false →
       ∃ e, (inference_detector F model img w).1 = Raise e
            ∧ ∃ evs, trace (inference_detector F model img w).2 = trace w ++ evs
                     ∧ ∀ g, EvForward g ∉ evs)
  ∧ (∀ c data,
       cuda_available w = false → is_cuda model = false →
       cfg model = Some c → prepare F c img = Ok data →
       inference_detector F model img w
       = (Raise CudaError,
          emit (EvWarn "We set use_torchvision=True in CPU mode.")
            (set_modules (rewrite_for_cpu <$> modules w) w))).
Proof.
  split; [apply inference_detector_cuda_first|].
  split; [apply inference_detector_needs_cuda|].
  intros c data Hc Hm Hcfg Hp. by apply (inference_detector_cpu_run F _ _ c data).
Qed.

Lemma C8_cuda_unconditional_witness :
  inference_detector Fixture.torch (Fixture.detector "cpu") (VStr "demo.jpg")
    Fixture.cpu_host
  = (Raise CudaError,
     {| grad_enabled := true; cuda_available := false;
        modules := [{| is_roi := true; aligned := false;
                       use_torchvision := true |}];
        trace := [EvWarn "We set use_torchvision=True in CPU mode."] |}).
Proof.
  apply (C8_cuda_unconditional Fixture.torch (Fixture.detector "cpu")
           (VStr "demo.jpg") Fixture.cpu_host)
    with (c := Fixture.config) (data := Fixture.request); reflexivity.
Defined.

(** ** C10 *)

(** C10.  When [LoadImage.__call__] returns, the dict it was given had an
    ['img'] entry from which [imread] got an array, and the dict it
    returns holds that array under ['img'], its shape under both
    ['img_shape'] and ['ori_shape'], [['img']] under ['img_fields'], and
    under both ['filename'] and ['ori_filename'] the entry itself if it
    was a [str] and [None] otherwise. *)
Theorem C10_LoadImage_invariant {Data Dets : Type} (F : framework Data Dets)
    (results results' : dict) :
  LoadImage_call F results = Ok results' →
  ∃ v a,
    results !! "img" = Some v ∧ imread F v = Ok (VArray a)
    ∧ results' !! "img" = Some (VArray a)
    ∧ results' !! "img_fields" = Some (VList [VStr "img"])
    ∧ results' !! "img_shape" = Some (VTuple (shape a))
    ∧ results' !! "ori_shape" = Some (VTuple (shape a))
    ∧ results' !! "filename" = Some (if is_str v then v else VNone)
    ∧ results' !! "ori_filename" = Some (if is_str v then v else VNone).
Proof.
  intros H. destruct (LoadImage_call_Ok F _ _ H) as (v & a & Hv & Hr & ->).
  exists v, a. split; [done|]. split; [done|]. apply loaded_lookups.
Qed.

Lemma C10_LoadImage_invariant_witness :
  ∃ v a,
    ({[ "img" := VStr "demo.jpg" ]} : dict) !! "img" = Some v
    ∧ imread Fixture.torch v = Ok (VArray a)
    ∧ Fixture.request !! "img" = Some (VArray a)
    ∧ Fixture.request !! "img_fields" = Some (VList [VStr "img"])
    ∧ Fixture.request !! "img_shape" = Some (VTuple (shape a))
    ∧ Fixture.request !! "ori_shape" = Some (VTuple (shape a))
    ∧ Fixture.request !! "filename" = Some (if is_str v then v else VNone)
    ∧ Fixture.request !! "ori_filename" = Some (if is_str v then v else VNone).
Proof.
  apply (C10_LoadImage_invariant Fixture.torch {[ "img" := VStr "demo.jpg" ]}
           Fixture.request).
  reflexivity.
Defined.

End InferenceClaims.

(* ===================================================================== *)
(** * More about [init_detector]                                          *)
(* ===================================================================== *)

Module InitExtras.
Import Py Tensor Uncertainty Inference GradFacts RunFacts Stages.

Section Framework.
Context {Data Dets : Type} (F : framework Data Dets).

(** [check_config] does not touch the state. *)
Lemma check_config_state (config : config_arg) (w : world) :
  (check_config F config w).2 = w.
Proof. by destruct config as [[]|]. Qed.

(** What [init_detector] returns, and what it did, when it returns. *)
Lemma init_detector_Ok (config : config_arg) (checkpoint : option string)
    (device : string) (w w' : world) (m : Detector Data Dets) :
  init_detector F config checkpoint device w = (Ok m, w') →
  ∃ c built loaded,
    check_config F config w = (Ok c, w)
    ∧ build_detector F (set_pretrained None c) = Ok built
    ∧ match checkpoint with
      | None => loaded = CLASSES built
      | Some path =>
          load_checkpoint F built path
            (if String.eqb device "cpu" then Some "cpu" else None)
          = Ok loaded
      end
    ∧ cfg m = Some (set_pretrained None c)
    ∧ Inference.device m = device
    ∧ CLASSES m = match checkpoint with
                  | None => CLASSES built
                  | Some _ => Some (default (get_classes_coco F) loaded)
                  end
    ∧ forward_result m = forward_result built
    ∧ forward_heads m = forward_heads built
    ∧ aforward_test m = aforward_test built
    ∧ trace w' = trace w ++ [EvBuild] ++ checkpoint_events checkpoint loaded
                 ++ [EvTo device; EvEval]
    ∧ grad_enabled w' = grad_enabled w ∧ modules w' = modules w.
Proof.
  intros H. pose proof (check_config_state config w) as Hst.
  unfold init_detector, mbind, M_bind, bind in H.
  destruct (check_config F config w) as [[c|e] w0] eqn:Hc;
    [|by inversion H].
  simpl in Hst; subst w0.
  unfold call, model_to, warn, modify, mret, M_ret, ret in H. simpl in H.
  destruct (build_detector F (set_pretrained None c)) as [built|e] eqn:Hb;
    [|by inversion H].
  exists c, built. simpl in H.
  destruct checkpoint as [path|]; simpl in H.
  - destruct (load_checkpoint F built path _) as [loaded|e] eqn:Hl;
      [|by inversion H].
    exists loaded. split; [done|]. split; [done|]. split; [done|].
    destruct loaded as [cs|]; simpl in H;
      (destruct (_ && _); [by inversion H|]); inversion H; subst; simpl;
      rewrite <- ?app_assoc; done.
  - exists (CLASSES built). split; [done|]. split; [done|]. split; [done|].
    destruct (_ && _); [by inversion H|]. inversion H; subst; simpl.
    rewrite <- ?app_assoc. done.
Qed.

(** X1.  When [init_detector] returns, the detector carries the config it
    was given with [pretrained] set to [None] and the pipeline, the
    metric and [k] as they were, it is on the device asked for, and
    [model.cfg] is there for [inference_detector] to read. *)
Theorem init_detector_keeps_config (config : config_arg)
    (checkpoint : option string) (device : string) (w w' : world)
    (m : Detector Data Dets) :
  init_detector F config checkpoint device w = (Ok m, w') →
  ∃ c c',
    check_config F config w = (Ok c, w) ∧ cfg m = Some c'
    ∧ pretrained c' = None ∧ pipeline c' = pipeline c
    ∧ uncertainty_type c' = uncertainty_type c ∧ k c' = k c
    ∧ Inference.device m = device
    ∧ get_cfg m w' = (Ok c', w').
Proof.
  intros H. destruct (init_detector_Ok _ _ _ _ _ _ H)
    as (c & built & loaded & Hc & _ & _ & Hcfg & Hd & _).
  exists c, (set_pretrained None c). unfold get_cfg. rewrite Hcfg.
  by repeat split.
Qed.

(** X2.  When [init_detector] returns: without a checkpoint the classes
    are those of the detector as built and nothing is loaded; with one,
    it was loaded with map location ['cpu'] exactly for the device
    ['cpu'], the classes are those of its meta data, or the COCO classes
    after one warning when it has none; the detector is built first and
    moved to the device and set to eval last. *)
Theorem init_detector_classes (config : config_arg)
    (checkpoint : option string) (device : string) (w w' : world)
    (m : Detector Data Dets) :
  init_detector F config checkpoint device w = (Ok m, w') →
  ∃ c built loaded,
    check_config F config w = (Ok c, w)
    ∧ build_detector F (set_pretrained None c) = Ok built
    ∧ match checkpoint with
      | None => loaded = CLASSES built ∧ CLASSES m = CLASSES built
      | Some path =>
          load_checkpoint F built path
            (if String.eqb device "cpu" then Some "cpu" else None)
          = Ok loaded
          ∧ CLASSES m = Some (default (get_classes_coco F) loaded)
      end
    ∧ trace w' = trace w ++ [EvBuild] ++ checkpoint_events checkpoint loaded
                 ++ [EvTo device; EvEval].
Proof.
  intros H. destruct (init_detector_Ok _ _ _ _ _ _ H)
    as (c & built & loaded & Hc & Hb & Hl & _ & _ & Hcl & _ & _ & _ & Ht & _).
  exists c, built, loaded. split; [done|]. split; [done|]. split; [|done].
  by destruct checkpoint.
Qed.

(** X3.  An exception of [build_detector] or of [load_checkpoint] is
    the exception of [init_detector], and nothing is done after it: the
    detector is neither loaded, nor moved, nor set to eval. *)
Theorem init_detector_failure (config : config_arg)
    (checkpoint : option string) (device : string) (w : world) (c : Config) :
  check_config F config w = (Ok c, w) →
  (∀ e, build_detector F (set_pretrained None c) = Raise e →
     init_detector F config checkpoint device w = (Raise e, emit EvBuild w))
  ∧ (∀ built path e,
       build_detector F (set_pretrained None c) = Ok built →
       checkpoint = Some path →
       load_checkpoint F built path
         (if String.eqb device "cpu" then Some "cpu" else None) = Raise e →
       init_detector F config checkpoint device w
       = (Raise e, emit (EvLoadCheckpoint path) (emit EvBuild w))).
Proof.
  intros Hc. split.
  - intros e Hb. unfold init_detector, mbind, M_bind, bind, call.
    by rewrite Hc, Hb.
  - intros built path e Hb -> Hl.
    unfold init_detector, mbind, M_bind, bind, call.
    rewrite Hc, Hb. simpl. by rewrite Hl.
Qed.

End Framework.

Lemma init_fixture :
  init_detector Fixture.torch (AConfig Fixture.config) (Some "epoch_3.pth")
    "cpu" Fixture.cpu_host
  = (Ok MoreFixture.initialised, MoreFixture.after_init).
Proof. reflexivity. Qed.

Lemma init_detector_keeps_config_witness :
  ∃ c c',
    check_config Fixture.torch (AConfig Fixture.config) Fixture.cpu_host
    = (Ok c, Fixture.cpu_host)
    ∧ cfg MoreFixture.initialised = Some c'
    ∧ pretrained c' = None ∧ pipeline c' = pipeline c
    ∧ uncertainty_type c' = uncertainty_type c ∧ k c' = k c
    ∧ Inference.device MoreFixture.initialised = "cpu"
    ∧ get_cfg MoreFixture.initialised MoreFixture.after_init
      = (Ok c', MoreFixture.after_init).
Proof.
  apply (init_detector_keeps_config Fixture.torch (AConfig Fixture.config)
           (Some "epoch_3.pth") "cpu" Fixture.cpu_host
           MoreFixture.after_init MoreFixture.initialised).
  exact init_fixture.
Defined.

Lemma init_detector_classes_witness :
  CLASSES MoreFixture.initialised = Some ["person"; "bicycle"]
  ∧ trace MoreFixture.after_init
    = [EvBuild; EvLoadCheckpoint "epoch_3.pth";
       EvWarn "Class names are not saved in the checkpoint's meta data, use COCO classes by default.";
       EvTo "cpu"; EvEval].
Proof.
  destruct (init_detector_classes Fixture.torch (AConfig Fixture.config)
              (Some "epoch_3.pth") "cpu" Fixture.cpu_host
              MoreFixture.after_init MoreFixture.initialised init_fixture)
    as (c & built & loaded & _ & _ & _ & _).
  split; reflexivity.
Defined.

Lemma init_detector_failure_witness :
  init_detector MoreFixture.unregistered (AConfig Fixture.config) None "cpu"
    Fixture.cpu_host
  = (Raise (External "MIAOD is not in the models registry"),
     emit EvBuild Fixture.cpu_host)
  ∧ init_detector MoreFixture.unreadable (AConfig Fixture.config)
      (Some "epoch_3.pth") "cpu" Fixture.cpu_host
    = (Raise (External "epoch_3.pth is not a checkpoint file"),
       emit (EvLoadCheckpoint "epoch_3.pth") (emit EvBuild Fixture.cpu_host)).
Proof.
  split.
  - apply (init_detector_failure MoreFixture.unregistered
             (AConfig Fixture.config) None "cpu" Fixture.cpu_host
             Fixture.config); reflexivity.
  - apply (init_detector_failure MoreFixture.unreadable
             (AConfig Fixture.config) (Some "epoch_3.pth") "cpu"
             Fixture.cpu_host Fixture.config)
      with (built := Fixture.detector "cpu"); reflexivity.
Defined.

End InitExtras.

(* ===================================================================== *)
(** * More about [LoadImage.__call__]                                     *)
(* ===================================================================== *)

Module LoadImageExtras.
Import Py Inference LoadImageFacts Stages.

Section Framework.
Context {Data Dets : Type} (F : framework Data Dets).

Ltac run_getitem v :=
  repeat (rewrite (getitem_Some _ "img" v)
            by (by rewrite ?lookup_insert_ne); simpl).

(** X4.  A dict without the key ['img'] makes [LoadImage.__call__] raise
    [KeyError], whatever [imread] would do. *)
Theorem LoadImage_missing_img (results : dict) :
  results !! "img" = None →
  LoadImage_call F results = Raise (KeyError "img").
Proof. intros H. unfold LoadImage_call, getitem. by rewrite H. Qed.

(** X5.  An exception of [imread] is the exception of the call, and a
    value other than an array returned by [imread] (the [None] of an
    image that cannot be decoded) makes the call raise [AttributeError]
    at [img.shape]. *)
Theorem LoadImage_imread_failure (results : dict) (v : value) :
  results !! "img" = Some v →
  (∀ e, imread F v = Raise e → LoadImage_call F results = Raise e)
  ∧ (∀ img, imread F v = Ok img → (∀ a, img ≠ VArray a) →
       LoadImage_call F results
       = Raise (AttributeError
                  ("'" +:+ type_name img
                   +:+ "' object has no attribute 'shape'"))).
Proof.
  intros Hv. split.
  - intros e Hr. unfold LoadImage_call. run_getitem v.
    destruct (is_str v); simpl; run_getitem v; by rewrite Hr.
  - intros img Hr Hna. unfold LoadImage_call. run_getitem v.
    destruct (is_str v); simpl; run_getitem v; rewrite Hr; simpl;
      destruct img; simpl; try done; by destruct (Hna a).
Qed.

(** X6.  The call returns exactly when the dict has an ['img'] entry from
    which [imread] gets an array, and then it returns the dict given with
    the six keys written. *)
Theorem LoadImage_returns_iff (results results' : dict) :
  LoadImage_call F results = Ok results'
  ↔ ∃ v a, results !! "img" = Some v ∧ imread F v = Ok (VArray a)
           ∧ results' = loaded results v a.
Proof.
  split.
  - apply LoadImage_call_Ok.
  - intros (v & a & Hv & Hr & ->). by apply LoadImage_call_returns.
Qed.

Lemma loaded_other (results : dict) (v : value) (a : ndarray) (key : string) :
  key ∉ LoadImage_keys → loaded results v a !! key = results !! key.
Proof.
  unfold LoadImage_keys. rewrite !not_elem_of_cons.
  intros (? & ? & ? & ? & ? & ? & _). unfold loaded.
  by rewrite !lookup_insert_ne.
Qed.

(** X7.  When the call returns, every key of the dict other than the six
    it writes holds what it held, and each of the six is there. *)
Theorem LoadImage_frame (results results' : dict) :
  LoadImage_call F results = Ok results' →
  (∀ key, key ∉ LoadImage_keys → results' !! key = results !! key)
  ∧ Forall (λ key, is_Some (results' !! key)) LoadImage_keys.
Proof.
  intros H. destruct (LoadImage_call_Ok F _ _ H) as (v & a & Hv & Hr & ->).
  split; [intros key; apply loaded_other|].
  destruct (loaded_lookups results v a) as (H1 & H2 & H3 & H4 & H5 & H6).
  unfold LoadImage_keys. repeat constructor; eauto.
Qed.

(** X8.  With an [imread] that returns arrays as they are, the call on
    its own result returns that result with ['filename'] and
    ['ori_filename'] set to [None]: a second pass through [LoadImage]
    loses the file name and changes nothing else. *)
Theorem LoadImage_twice (results results' : dict) :
  (∀ a, imread F (VArray a) = Ok (VArray a)) →
  LoadImage_call F results = Ok results' →
  LoadImage_call F results'
  = Ok (<["ori_filename" := VNone]> (<["filename" := VNone]> results')).
Proof.
  intros Hid H. destruct (LoadImage_call_Ok F _ _ H) as (v & a & Hv & Hr & ->).
  rewrite (LoadImage_call_returns F _ (VArray a) a);
    [|by apply loaded_lookups|apply Hid].
  f_equal. apply map_eq. intros key. unfold loaded, filename_of. simpl.
  repeat (rewrite lookup_insert; case_decide; simplify_eq; try done).
Qed.

End Framework.

Lemma LoadImage_missing_img_witness :
  LoadImage_call Fixture.torch {[ "filename" := VStr "demo.jpg" ]}
  = Raise (KeyError "img").
Proof.
  apply (LoadImage_missing_img Fixture.torch {[ "filename" := VStr "demo.jpg" ]}).
  reflexivity.
Defined.

Lemma LoadImage_imread_failure_witness :
  LoadImage_call Fixture.torch {[ "img" := VInt 3 ]}
  = Raise (TypeError "img must be a numpy array or a str").
Proof.
  apply (LoadImage_imread_failure Fixture.torch {[ "img" := VInt 3 ]} (VInt 3));
    reflexivity.
Defined.

Lemma LoadImage_returns_iff_witness :
  LoadImage_call Fixture.torch {[ "img" := VStr "demo.jpg" ]}
  = Ok Fixture.request.
Proof.
  apply (LoadImage_returns_iff Fixture.torch {[ "img" := VStr "demo.jpg" ]}
           Fixture.request).
  exists (VStr "demo.jpg"), Fixture.image. repeat split; reflexivity.
Defined.

Lemma LoadImage_frame_witness :
  (∀ key, key ∉ LoadImage_keys →
     Fixture.request !! key
     = ({[ "img" := VStr "demo.jpg" ]} : dict) !! key)
  ∧ Forall (λ key, is_Some (Fixture.request !! key)) LoadImage_keys.
Proof.
  apply (LoadImage_frame Fixture.torch {[ "img" := VStr "demo.jpg" ]}
           Fixture.request).
  reflexivity.
Defined.

Lemma LoadImage_twice_witness :
  LoadImage_call Fixture.torch Fixture.request
  = Ok (<["ori_filename" := VNone]> (<["filename" := VNone]> Fixture.request)).
Proof.
  apply (LoadImage_twice Fixture.torch {[ "img" := VStr "demo.jpg" ]}
           Fixture.request); reflexivity.
Defined.

End LoadImageExtras.

(* ===================================================================== *)
(** * More about [inference_detector] and [async_inference_detector]      *)
(* ===================================================================== *)

Module RunExtras.
Import Py Tensor Uncertainty Inference GradFacts RunFacts Stages.
Local Open Scope R_scope.

Section Framework.
Context {Data Dets : Type} (F : framework Data Dets).

Ltac run :=
  unfold inference_detector, async_inference_detector,
    set_grad_enabled, get_cfg, no_grad, tensor_cuda, forward, aforward,
    call, warn, modify, lift, raise, mbind, M_bind, bind, mret, M_ret, ret;
  simpl.

(** The state when the scope of line 114 is entered. *)
Lemma inference_detector_staged (model : Detector Data Dets) (img : value)
    (w : world) (c : Config) (data data' : Data) :
  cfg model = Some c → prepare F c img = Ok data →
  staged F model data = Ok data' →
  inference_detector F model img w
  = no_grad
      (tensor_cuda;;
       result ← forward (forward_result model) (img_as_x F (img_to_cuda F data'));
       heads ← forward (forward_heads model) (img_as_x F (img_to_cuda F data'));
       let '(y_head_f_1, y_head_f_2, y_head_cls) := heads in
       uncertainty_single ←
         lift (uncertainty_of_heads (uncertainty_type c) (k c)
                 y_head_f_1 y_head_f_2);
       ret (result, uncertainty_single))
      (if is_cuda model then w
       else emit (EvWarn "We set use_torchvision=True in CPU mode.")
              (set_modules (rewrite_for_cpu <$> modules w) w)).
Proof.
  intros Hc Hp Hs. unfold staged in Hs.
  unfold inference_detector, get_cfg. rewrite Hc.
  unfold mbind at 1, M_bind at 1, bind at 1, ret. simpl.
  unfold mbind at 1, M_bind at 1, bind at 1, lift at 1. rewrite Hp. simpl.
  unfold mbind at 1, M_bind at 1, bind at 1.
  destruct (is_cuda model).
  - unfold lift at 1. rewrite Hs. done.
  - simplify_eq. done.
Qed.


(** ** The forward passes *)

(** X9.  A run that gets to the dispatch has by then moved the image to
    CUDA and run the detector twice, without grad: the [ValueError] of a
    wrong metric name comes after both forward passes. *)
Theorem two_forward_passes_before_dispatch (model : Detector Data Dets)
    (img : value) (w : world) (c : Config) (result : Dets)
    (heads_1 heads_2 : list tensor2) :
  reaches_dispatch F model img w c result heads_1 heads_2 →
  trace (inference_detector F model img w).2
  = trace w ++ staging_events model
    ++ [EvCuda; EvForward false; EvForward false].
Proof.
  intros (data & data' & hc & Hcfg & Hp & Hs & Hc & Hr & Hh).
  rewrite (inference_detector_staged model img w c data data') by done.
  unfold staging_events. run.
  destruct (is_cuda model); simpl; rewrite Hc; simpl; rewrite Hr, Hh; simpl;
    destruct (uncertainty_of_heads _ _ _ _); simpl;
    by rewrite <- ?app_assoc.
Qed.

(** X10.  An exception of the first forward pass is the exception of
    [inference_detector] and the second pass is not made; one of the
    second pass is the exception as well. *)
Theorem forward_failure_propagates (model : Detector Data Dets)
    (img : value) (w : world) (c : Config) (data data' : Data) (e : exn) :
  cfg model = Some c → prepare F c img = Ok data →
  staged F model data = Ok data' → cuda_available w = true →
  (forward_result model (img_as_x F (img_to_cuda F data')) = Raise e →
     (inference_detector F model img w).1 = Raise e
     ∧ trace (inference_detector F model img w).2
       = trace w ++ staging_events model ++ [EvCuda; EvForward false])
  ∧ (∀ result,
       forward_result model (img_as_x F (img_to_cuda F data')) = Ok result →
       forward_heads model (img_as_x F (img_to_cuda F data')) = Raise e →
       (inference_detector F model img w).1 = Raise e
       ∧ trace (inference_detector F model img w).2
         = trace w ++ staging_events model
           ++ [EvCuda; EvForward false; EvForward false]).
Proof.
  intros Hcfg Hp Hs Hc.
  rewrite (inference_detector_staged model img w c data data') by done.
  unfold staging_events. split.
  - intros Hr. run.
    destruct (is_cuda model); simpl; rewrite Hc; simpl; rewrite Hr; simpl;
      by rewrite <- ?app_assoc.
  - intros result Hr Hh. run.
    destruct (is_cuda model); simpl; rewrite Hc; simpl; rewrite Hr, Hh; simpl;
      by rewrite <- ?app_assoc.
Qed.

(** ** The modules of the detector *)

Lemma rewrite_for_cpu_idemp (m : module_) :
  rewrite_for_cpu (rewrite_for_cpu m) = rewrite_for_cpu m.
Proof. by destruct m as [[] [] []]. Qed.

Lemma rewrite_for_cpu_fields (m : module_) :
  is_roi (rewrite_for_cpu m) = is_roi m
  ∧ aligned (rewrite_for_cpu m) = aligned m
  ∧ use_torchvision (rewrite_for_cpu m)
    = use_torchvision m || (is_roi m && negb (aligned m)).
Proof. by destruct m as [[] [] []]. Qed.

(** The modules after a run are the ones before, as they are or
    rewritten. *)
Lemma inference_detector_modules (model : Detector Data Dets) (img : value)
    (w : world) :
  modules (inference_detector F model img w).2
  = if is_cuda model then modules w
    else match cfg model with
         | Some c => if prepare F c img is Ok _
                     then rewrite_for_cpu <$> modules w else modules w
         | None => modules w
         end.
Proof.
  run. destruct (cfg model) as [c|]; simpl; [|by destruct (is_cuda model)].
  destruct (prepare F c img) as [data|e]; simpl;
    [|by destruct (is_cuda model)].
  destruct (is_cuda model); simpl.
  - destruct (scatter F data (device model)) as [data'|]; simpl; [|done].
    destruct (cuda_available w); simpl; [|done].
    destruct (forward_result model _); simpl; [|done].
    destruct (forward_heads model _) as [[[h1 h2] hc]|]; simpl; [|done].
    by destruct (uncertainty_of_heads _ _ _ _).
  - destruct (cuda_available w); simpl; [|done].
    destruct (forward_result model _); simpl; [|done].
    destruct (forward_heads model _) as [[[h1 h2] hc]|]; simpl; [|done].
    by destruct (uncertainty_of_heads _ _ _ _).
Qed.

(** X11.  A detector on CUDA keeps its modules as they are.  For one on
    the CPU, once the data is prepared, a module keeps what it is and
    whether it is aligned, and uses torchvision afterwards exactly when
    it did before or is an RoI module that is not aligned. *)
Theorem modules_rewritten_on_cpu_only (model : Detector Data Dets)
    (img : value) (w : world) :
  (is_cuda model = true →
     modules (inference_detector F model img w).2 = modules w)
  ∧ (∀ c data, is_cuda model = false →
       cfg model = Some c → prepare F c img = Ok data →
       Forall2 (λ m m', is_roi m' = is_roi m ∧ aligned m' = aligned m
                        ∧ use_torchvision m'
                          = use_torchvision m
                            || (is_roi m && negb (aligned m)))
         (modules w) (modules (inference_detector F model img w).2)).
Proof.
  rewrite inference_detector_modules. split.
  - by intros ->.
  - intros c data -> -> ->. apply Forall2_fmap_r, Forall_Forall2_diag.
    apply Forall_true. intros m. apply rewrite_for_cpu_fields.
Qed.

(** X12.  After a run that got past the pipeline, another run leaves the
    modules as they are: the rewrite for the CPU happens once. *)
Theorem modules_stable_after_first_run (model : Detector Data Dets)
    (img img' : value) (w : world) (c : Config) (data : Data) :
  cfg model = Some c → prepare F c img = Ok data →
  modules (inference_detector F model img'
             (inference_detector F model img w).2).2
  = modules (inference_detector F model img w).2.
Proof.
  intros Hc Hp. rewrite !inference_detector_modules, Hc, Hp.
  destruct (is_cuda model); [done|].
  destruct (prepare F c img'); [|done].
  rewrite <- list_fmap_compose. apply list_fmap_ext.
  intros _ m _. apply rewrite_for_cpu_idemp.
Qed.


(** ** The detections and the uncertainty settings *)

Lemma inference_detector_Ok_inv (model : Detector Data Dets) (img : value)
    (w : world) (result : Dets) (u : R) :
  (inference_detector F model img w).1 = Ok (result, u) →
  ∃ c heads_1 heads_2,
    reaches_dispatch F model img w c result heads_1 heads_2
    ∧ uncertainty_of_heads (uncertainty_type c) (k c) heads_1 heads_2 = Ok u.
Proof.
  unfold reaches_dispatch, staged. run.
  destruct (cfg model) as [c|]; simpl; [|done].
  destruct (prepare F c img) as [data|] eqn:Hp; simpl; [|done].
  destruct (is_cuda model); simpl.
  - destruct (scatter F data (device model)) as [data'|] eqn:Hs; simpl;
      [|done].
    destruct (cuda_available w) eqn:Hc; simpl; [|done].
    destruct (forward_result model _) as [r|] eqn:Hr; simpl; [|done].
    destruct (forward_heads model _) as [[[h1 h2] hc]|] eqn:Hh; simpl;
      [|done].
    destruct (uncertainty_of_heads _ _ _ _) as [u'|] eqn:Hu; simpl; [|done].
    intros ?; simplify_eq. exists c, h1, h2. split; [|done].
    exists data, data', hc. by rewrite Hr, Hh.
  - destruct (cuda_available w) eqn:Hc; simpl; [|done].
    destruct (forward_result model _) as [r|] eqn:Hr; simpl; [|done].
    destruct (forward_heads model _) as [[[h1 h2] hc]|] eqn:Hh; simpl;
      [|done].
    destruct (uncertainty_of_heads _ _ _ _) as [u'|] eqn:Hu; simpl; [|done].
    intros ?; simplify_eq. exists c, h1, h2. split; [|done].
    exists data, (img_metas_data F data), hc. by rewrite Hr, Hh.
Qed.

Lemma prepare_pipeline (c1 c2 : Config) (img : value) :
  pipeline c2 = pipeline c1 → prepare F c2 img = prepare F c1 img.
Proof. intros H. unfold prepare. by rewrite H. Qed.

(** X13.  The detections do not depend on the uncertainty settings: if
    a run returns with one config, it returns the same detections with
    any config of the same pipeline and a valid metric. *)
Theorem detections_do_not_depend_on_metric (model : Detector Data Dets)
    (c1 c2 : Config) (img : value) (w : world) (result : Dets) (u1 : R) :
  pipeline c2 = pipeline c1 → uncertainty_type c2 ∈ uncertainty_types →
  (inference_detector F (with_cfg c1 model) img w).1 = Ok (result, u1) →
  ∃ u2, (inference_detector F (with_cfg c2 model) img w).1 = Ok (result, u2).
Proof.
  intros Hpipe Hvalid H.
  destruct (inference_detector_Ok_inv _ _ _ _ _ H)
    as (c & h1 & h2 & (data & data' & hc & Hcfg & Hp & Hs & Hc & Hr & Hh) & _).
  simpl in Hcfg. simplify_eq.
  rewrite (inference_detector_result F (with_cfg c2 model) img w c2 data data'
             result h1 h2 hc); try done.
  - unfold uncertainty_of_heads.
    destruct (UncertaintyClaims.uncertainty_all_N_valid (uncertainty_type c2)
                (t_sigmoid (cat0 h1)) (t_sigmoid (cat0 h2)) Hvalid)
      as [u ->].
    simpl. eauto.
  - by rewrite (prepare_pipeline c c2).
Qed.

(** ** The asynchronous variant *)

(** X23.  When the config is missing, or the pipeline or [scatter]
    raises, [async_inference_detector] raises with the state untouched:
    the grad mode is switched off only at line 187. *)
Theorem async_early_failure (model : Detector Data Dets) (img : value)
    (w : world) :
  (∀ c data data',
     ¬ (cfg model = Some c ∧ prepare F c img = Ok data
        ∧ scatter F data (device model) = Ok data')) →
  ∃ e, async_inference_detector F model img w = (Raise e, w).
Proof.
  intros Hnot. run.
  destruct (cfg model) as [c|]; simpl; [|eauto].
  destruct (prepare F c img) as [data|] eqn:Hp; simpl; [|eauto].
  destruct (scatter F data (device model)) as [data'|] eqn:Hs; simpl;
    [|eauto].
  destruct (Hnot c data data'). by rewrite Hp.
Qed.


(** X25.  [async_inference_detector] reads nothing of the config but
    the pipeline: the metric and [k] do not matter, and a wrong metric
    name is not noticed. *)
Theorem async_ignores_uncertainty_settings (model : Detector Data Dets)
    (c1 c2 : Config) (img : value) (w : world) :
  pipeline c2 = pipeline c1 →
  async_inference_detector F (with_cfg c2 model) img w
  = async_inference_detector F (with_cfg c1 model) img w.
Proof.
  intros Hpipe. run. by rewrite (prepare_pipeline c1 c2).
Qed.

(** X26.  Once [async_inference_detector] has got to its forward pass,
    every later [inference_detector] ends with the grad mode off: its
    scope restores the mode the asynchronous call left. *)
Theorem grad_mode_stays_off_after_async (model model' : Detector Data Dets)
    (img img' : value) (w : world) (c : Config) (data data' : Data) :
  cfg model = Some c → prepare F c img = Ok data →
  scatter F data (device model) = Ok data' →
  grad_enabled
    (inference_detector F model' img'
       (async_inference_detector F model img w).2).2 = false.
Proof.
  intros Hc Hp Hs.
  destruct (keeps_grad_inference_detector F model' img'
              (async_inference_detector F model img w).2) as [-> _].
  by rewrite (async_inference_detector_run F model img c data data' w).
Qed.

End Framework.

(** ** On the fixtures *)

Lemma reaches_dispatch_fixture (c : Config) (dev : string) :
  reaches_dispatch Fixture.torch (Fixture.detector_of c dev) (VStr "demo.jpg")
    Fixture.cuda_host c [0%nat] [[[0]; [1]]] [[[0]; [0]]].
Proof.
  exists Fixture.request, Fixture.request, []. repeat split; try reflexivity.
  unfold staged. by destruct (is_cuda _).
Qed.

Lemma two_forward_passes_before_dispatch_witness :
  trace (inference_detector Fixture.torch
           (Fixture.detector_of Fixture.bad_config "cuda:0")
           (VStr "demo.jpg") Fixture.cuda_host).2
  = [EvCuda; EvForward false; EvForward false].
Proof.
  apply (two_forward_passes_before_dispatch Fixture.torch
           (Fixture.detector_of Fixture.bad_config "cuda:0")
           (VStr "demo.jpg") Fixture.cuda_host Fixture.bad_config [0%nat]
           [[[0]; [1]]] [[[0]; [0]]]).
  apply reaches_dispatch_fixture.
Defined.

Lemma forward_failure_propagates_witness :
  ((inference_detector Fixture.torch MoreFixture.out_of_memory
      (VStr "demo.jpg") Fixture.cuda_host).1
   = Raise (External "CUDA out of memory")
   ∧ trace (inference_detector Fixture.torch MoreFixture.out_of_memory
              (VStr "demo.jpg") Fixture.cuda_host).2
     = [EvCuda; EvForward false])
  ∧ ((inference_detector Fixture.torch MoreFixture.no_heads
        (VStr "demo.jpg") Fixture.cuda_host).1
     = Raise (External "unexpected keyword argument 'return_box'")
     ∧ trace (inference_detector Fixture.torch MoreFixture.no_heads
                (VStr "demo.jpg") Fixture.cuda_host).2
       = [EvCuda; EvForward false; EvForward false]).
Proof.
  split.
  - apply (forward_failure_propagates Fixture.torch MoreFixture.out_of_memory
             (VStr "demo.jpg") Fixture.cuda_host Fixture.config
             Fixture.request Fixture.request
             (External "CUDA out of memory")); reflexivity.
  - apply (forward_failure_propagates Fixture.torch MoreFixture.no_heads
             (VStr "demo.jpg") Fixture.cuda_host Fixture.config
             Fixture.request Fixture.request
             (External "unexpected keyword argument 'return_box'"))
      with (result := [0%nat]); reflexivity.
Defined.

Lemma modules_rewritten_on_cpu_only_witness :
  modules (inference_detector Fixture.torch (Fixture.detector "cuda:0")
             (VStr "demo.jpg") Fixture.cuda_host).2
  = modules Fixture.cuda_host
  ∧ Forall2 (λ m m', is_roi m' = is_roi m ∧ aligned m' = aligned m
                     ∧ use_torchvision m'
                       = use_torchvision m || (is_roi m && negb (aligned m)))
      (modules Fixture.cuda_host)
      (modules (inference_detector Fixture.torch (Fixture.detector "cpu")
                  (VStr "demo.jpg") Fixture.cuda_host).2).
Proof.
  split.
  - apply (modules_rewritten_on_cpu_only Fixture.torch
             (Fixture.detector "cuda:0") (VStr "demo.jpg") Fixture.cuda_host).
    reflexivity.
  - apply (modules_rewritten_on_cpu_only Fixture.torch
             (Fixture.detector "cpu") (VStr "demo.jpg") Fixture.cuda_host)
      with (c := Fixture.config) (data := Fixture.request); reflexivity.
Defined.

Lemma modules_stable_after_first_run_witness :
  modules (inference_detector Fixture.torch (Fixture.detector "cpu")
             (VStr "other.jpg")
             (inference_detector Fixture.torch (Fixture.detector "cpu")
                (VStr "demo.jpg") Fixture.cuda_host).2).2
  = modules (inference_detector Fixture.torch (Fixture.detector "cpu")
               (VStr "demo.jpg") Fixture.cuda_host).2.
Proof.
  apply (modules_stable_after_first_run Fixture.torch (Fixture.detector "cpu")
           (VStr "demo.jpg") (VStr "other.jpg") Fixture.cuda_host
           Fixture.config Fixture.request); reflexivity.
Defined.

Lemma detections_do_not_depend_on_metric_witness :
  ∃ u2, (inference_detector Fixture.torch
           (with_cfg MoreFixture.js_config (Fixture.detector "cuda:0"))
           (VStr "demo.jpg") Fixture.cuda_host).1 = Ok ([0%nat], u2).
Proof.
  eapply (detections_do_not_depend_on_metric Fixture.torch
            (Fixture.detector "cuda:0") Fixture.config MoreFixture.js_config
            (VStr "demo.jpg") Fixture.cuda_host [0%nat]).
  - reflexivity.
  - unfold uncertainty_types. simpl. rewrite !elem_of_cons. auto.
  - reflexivity.
Defined.

Lemma async_early_failure_witness :
  ∃ e, async_inference_detector Fixture.torch (Fixture.detector "cuda:0")
         (VInt 3) Fixture.cuda_host = (Raise e, Fixture.cuda_host).
Proof.
  apply (async_early_failure Fixture.torch (Fixture.detector "cuda:0")
           (VInt 3) Fixture.cuda_host).
  intros c data data' (Hc & Hp & _). simpl in Hc. injection Hc as <-.
  discriminate Hp.
Defined.

Lemma async_ignores_uncertainty_settings_witness :
  async_inference_detector Fixture.torch
    (with_cfg Fixture.bad_config (Fixture.detector "cuda:0"))
    (VStr "demo.jpg") Fixture.cuda_host
  = async_inference_detector Fixture.torch
      (with_cfg Fixture.config (Fixture.detector "cuda:0"))
      (VStr "demo.jpg") Fixture.cuda_host.
Proof.
  apply (async_ignores_uncertainty_settings Fixture.torch
           (Fixture.detector "cuda:0") Fixture.config Fixture.bad_config).
  reflexivity.
Defined.

Lemma grad_mode_stays_off_after_async_witness :
  grad_enabled Fixture.cuda_host = true
  ∧ grad_enabled
      (inference_detector Fixture.torch (Fixture.detector "cuda:0")
         (VStr "other.jpg")
         (async_inference_detector Fixture.torch (Fixture.detector "cuda:0")
            (VStr "demo.jpg") Fixture.cuda_host).2).2 = false.
Proof.
  split; [reflexivity|].
  apply (grad_mode_stays_off_after_async Fixture.torch
           (Fixture.detector "cuda:0") (Fixture.detector "cuda:0")
           (VStr "demo.jpg") (VStr "other.jpg") Fixture.cuda_host
           Fixture.config Fixture.request Fixture.request); reflexivity.
Defined.

End RunExtras.

(* ===================================================================== *)
(** * More about the uncertainty formulas                                 *)
(* ===================================================================== *)

Module FormulaExtras.
Import Py Tensor Uncertainty TensorFacts DispatchFacts IdenticalHeadsFacts.
Local Open Scope R_scope.

(** ** Swapping the heads *)

Lemma t_zip_swap (f : R → R → R) (a b : tensor2) :
  t_zip f a b = t_zip (λ x y, f y x) b a.
Proof.
  unfold t_zip. revert b; induction a as [|r1 a IH]; intros [|r2 b]; simpl;
    try done.
  rewrite IH. f_equal. symmetry. apply (zip_with_flip f).
Qed.

Lemma same_shape_sym (a b : tensor2) : same_shape a b → same_shape b a.
Proof. induction 1; constructor; auto. Qed.

Lemma metric_symmetric (m : metric) (y1 y2 : tensor2) :
  (∀ x y, spec_formula m y x = spec_formula m x y) →
  same_shape y1 y2 →
  uncertainty_all_N (metric_name m) y1 y2
  = uncertainty_all_N (metric_name m) y2 y1.
Proof.
  intros Hm H. rewrite !uncertainty_all_N_metric by auto using same_shape_sym.
  do 2 f_equal. rewrite t_zip_swap. by apply t_zip_pointwise.
Qed.

Lemma l2_norm_swap (x y : R) : spec_formula L2Norm y x = spec_formula L2Norm x y.
Proof. simpl. ring. Qed.

Lemma js_divergence_swap (x y : R) :
  spec_formula JSDivergence y x = spec_formula JSDivergence x y.
Proof. simpl. rewrite (Rplus_comm y x). ring. Qed.

(** X14.  'l2_norm' and 'js_divergence' do not tell the two heads apart:
    swapping them gives the same per-sample values. *)
Theorem l2_norm_js_divergence_symmetric (y_head_f_1 y_head_f_2 : tensor2) :
  same_shape y_head_f_1 y_head_f_2 →
  uncertainty_all_N "l2_norm" y_head_f_1 y_head_f_2
  = uncertainty_all_N "l2_norm" y_head_f_2 y_head_f_1
  ∧ uncertainty_all_N "js_divergence" y_head_f_1 y_head_f_2
    = uncertainty_all_N "js_divergence" y_head_f_2 y_head_f_1.
Proof.
  intros H. split.
  - apply (metric_symmetric L2Norm); [apply l2_norm_swap|done].
  - apply (metric_symmetric JSDivergence); [apply js_divergence_swap|done].
Qed.

(** ** Signs and bounds, entry by entry *)

Lemma l2_norm_range (x y : R) :
  0 < x < 1 → 0 < y < 1 → 0 <= spec_formula L2Norm x y < 1.
Proof.
  intros Hx Hy. change (0 <= (x - y) ^ 2 < 1). split; [apply pow2_ge_0|].
  assert (0 < (1 - (x - y)) * (1 + (x - y))) by (apply Rmult_lt_0_compat; lra).
  simpl. lra.
Qed.

Lemma cross_entropy_pos (x y : R) :
  0 < x < 1 → 0 < y < 1 → 0 < spec_formula CrossEntropy x y.
Proof.
  intros Hx Hy. simpl. unfold spec_cross_entropy.
  assert (ln y < 0) by (rewrite <- ln_1; apply ln_increasing; lra).
  assert (ln (1 - y) < 0) by (rewrite <- ln_1; apply ln_increasing; lra).
  assert (0 < x * - ln y) by (apply Rmult_lt_0_compat; lra).
  assert (0 < (1 - x) * - ln (1 - y)) by (apply Rmult_lt_0_compat; lra).
  lra.
Qed.

Lemma focal_loss_range (x y : R) :
  0 < x < 1 → 0 < y < 1 →
  0 <= spec_formula FocalLoss x y <= 3 / 4 * spec_formula CrossEntropy x y.
Proof.
  intros Hx Hy. pose proof (cross_entropy_pos x y Hx Hy) as Hce. simpl in *.
  set (ce := spec_cross_entropy x y) in *.
  set (p := x * y + (1 - x) * (1 - y)).
  assert (0 < p < 1) as Hp by (unfold p; split; nra).
  set (a := 0.25 * x + (1 - 0.25) * (1 - x)).
  assert (0 < a < 3 / 4) as Ha by (unfold a; lra).
  assert (0 <= (1 - p) ^ 2 <= 1) as Hq by (split; nra).
  assert (0 <= a * (1 - p) ^ 2 <= 3 / 4) as Haq by (split; nra).
  split; nra.
Qed.

(** ** From the entries to the samples *)

#[local] Abbreviation unit_interval := (λ x : R, 0 < x < 1).

Lemma Rsum_bounds (l : list R) (lo hi : R) :
  Forall (λ x, lo <= x <= hi) l →
  INR (length l) * lo <= Rsum l <= INR (length l) * hi.
Proof.
  induction 1 as [|x l Hx _ IH]; [simpl; lra|].
  rewrite length_cons, S_INR. simpl. lra.
Qed.

Lemma mean_bounds (l : list R) (lo hi : R) :
  l ≠ [] → Forall (λ x, lo <= x <= hi) l → lo <= mean l <= hi.
Proof.
  intros Hne H. pose proof (Rsum_bounds l lo hi H) as Hs.
  assert (0 < INR (length l)) as Hn.
  { apply lt_0_INR. destruct l; [done|simpl; lia]. }
  unfold mean. split.
  - apply (Rmult_le_reg_r (INR (length l))); [done|].
    unfold Rdiv. rewrite Rmult_assoc, Rinv_l by lra. lra.
  - apply (Rmult_le_reg_r (INR (length l))); [done|].
    unfold Rdiv. rewrite Rmult_assoc, Rinv_l by lra. lra.
Qed.

Lemma Forall_zip_with_entries (F : R → R → R) (P : R → Prop) (r1 r2 : list R) :
  (∀ x y, unit_interval x → unit_interval y → P (F x y)) →
  Forall unit_interval r1 → Forall unit_interval r2 →
  Forall P (zip_with F r1 r2).
Proof.
  intros HF H1. revert r2. induction H1 as [|x r1 Hx _ IH];
    intros r2 H2; [done|].
  destruct H2 as [|y r2 Hy H2]; [done|]. simpl. constructor; auto.
Qed.

(** A property of every sample follows from one of every pair of rows. *)
Lemma Forall_samples (f : list R → list R → R) (P : R → Prop)
    (y1 y2 : tensor2) :
  (∀ r1 r2, length r1 = length r2 → r1 ≠ [] →
     Forall unit_interval r1 → Forall unit_interval r2 → P (f r1 r2)) →
  same_shape y1 y2 → post_sigmoid y1 → post_sigmoid y2 →
  Forall P (zip_with f y1 y2).
Proof.
  intros Hf Hs. induction Hs as [|r1 r2 y1 y2 Hl _ IH]; intros H1 H2;
    [done|].
  apply Forall_cons in H1 as [[Hne1 Hr1] H1].
  apply Forall_cons in H2 as [[_ Hr2] H2].
  simpl. constructor; auto.
Qed.

Lemma Forall2_samples (f g : list R → list R → R) (Q : R → R → Prop)
    (y1 y2 : tensor2) :
  (∀ r1 r2, length r1 = length r2 → r1 ≠ [] →
     Forall unit_interval r1 → Forall unit_interval r2 →
     Q (f r1 r2) (g r1 r2)) →
  same_shape y1 y2 → post_sigmoid y1 → post_sigmoid y2 →
  Forall2 Q (zip_with f y1 y2) (zip_with g y1 y2).
Proof.
  intros Hf Hs. induction Hs as [|r1 r2 y1 y2 Hl _ IH]; intros H1 H2;
    [constructor|].
  apply Forall_cons in H1 as [[Hne1 Hr1] H1].
  apply Forall_cons in H2 as [[_ Hr2] H2].
  simpl. constructor; auto.
Qed.

Lemma spec_sample_mean (m : metric) (r1 r2 : list R) :
  length r1 = length r2 →
  spec_sample m r1 r2 = mean (zip_with (spec_formula m) r1 r2).
Proof.
  intros Hl. unfold spec_sample, mean.
  by rewrite length_zip_with, <- Hl, Nat.min_id.
Qed.

Lemma zip_with_nonempty (F : R → R → R) (r1 r2 : list R) :
  length r1 = length r2 → r1 ≠ [] → zip_with F r1 r2 ≠ [].
Proof. destruct r1, r2; simpl; intros; done. Qed.

Lemma uncertainty_all_N_spec (m : metric) (y1 y2 : tensor2) :
  same_shape y1 y2 →
  uncertainty_all_N (metric_name m) y1 y2 = Ok (spec_uncertainty m y1 y2).
Proof.
  intros H. rewrite uncertainty_all_N_metric by done.
  by rewrite spec_uncertainty_mean.
Qed.

Lemma spec_uncertainty_length (m : metric) (y1 y2 : tensor2) :
  same_shape y1 y2 → length (spec_uncertainty m y1 y2) = length y1.
Proof.
  intros H. unfold spec_uncertainty.
  rewrite length_zip_with, <- (Forall2_length _ _ _ H). lia.
Qed.

(** The samples of a metric whose entries lie in a range lie in it. *)
Lemma samples_in_range (m : metric) (lo hi : R) (y1 y2 : tensor2) :
  (∀ x y, unit_interval x → unit_interval y →
     lo <= spec_formula m x y <= hi) →
  same_shape y1 y2 → post_sigmoid y1 → post_sigmoid y2 →
  Forall (λ s, lo <= s <= hi) (spec_uncertainty m y1 y2).
Proof.
  intros Hm. apply Forall_samples. intros r1 r2 Hl Hne H1 H2.
  rewrite spec_sample_mean by done.
  apply mean_bounds; [by apply zip_with_nonempty|].
  by apply Forall_zip_with_entries.
Qed.


Lemma Rsum_nonneg (l : list R) : Forall (λ x, 0 <= x) l → 0 <= Rsum l.
Proof. induction 1 as [|x l Hx _ IH]; simpl; lra. Qed.

Lemma mean_nonneg (l : list R) : l ≠ [] → Forall (λ x, 0 <= x) l → 0 <= mean l.
Proof.
  intros Hne H. unfold mean. apply Rmult_le_pos; [by apply Rsum_nonneg|].
  left. apply Rinv_0_lt_compat, lt_0_INR. destruct l; [done|simpl; lia].
Qed.

Lemma samples_nonneg (m : metric) (y1 y2 : tensor2) :
  (∀ x y, unit_interval x → unit_interval y → 0 <= spec_formula m x y) →
  same_shape y1 y2 → post_sigmoid y1 → post_sigmoid y2 →
  Forall (λ s, 0 <= s) (spec_uncertainty m y1 y2).
Proof.
  intros Hm. apply Forall_samples. intros r1 r2 Hl Hne H1 H2.
  rewrite spec_sample_mean by done.
  apply mean_nonneg; [by apply zip_with_nonempty|].
  by apply Forall_zip_with_entries.
Qed.

(** X15.  For heads with entries strictly between 0 and 1, 'l2_norm',
    'cross_entropy' and 'focal_loss' give one value per sample, none of
    them negative: each entry of these three is a square, or a product
    of factors and a sum of terms that are not negative. *)
Theorem l2_norm_cross_entropy_focal_loss_nonnegative (m : metric)
    (y_head_f_1 y_head_f_2 : tensor2) :
  m = L2Norm ∨ m = CrossEntropy ∨ m = FocalLoss →
  same_shape y_head_f_1 y_head_f_2 →
  post_sigmoid y_head_f_1 → post_sigmoid y_head_f_2 →
  ∃ u, uncertainty_all_N (metric_name m) y_head_f_1 y_head_f_2 = Ok u
       ∧ length u = length y_head_f_1
       ∧ Forall (λ s, 0 <= s) u.
Proof.
  intros Hm Hs H1 H2. exists (spec_uncertainty m y_head_f_1 y_head_f_2).
  split; [by apply uncertainty_all_N_spec|].
  split; [by apply spec_uncertainty_length|].
  apply samples_nonneg; try done. intros x y Hx Hy.
  destruct Hm as [->|[->| ->]].
  - apply l2_norm_range; done.
  - left. by apply cross_entropy_pos.
  - by apply focal_loss_range.
Qed.

(** The two divergences are left out for a reason.  The entries of
    'js_divergence' are sums of terms of both signs, which leaves the
    sign of a value near zero to the rounding; those of 'kl_divergence'
    are negative wherever the first head is below the second: one entry
    1/4 against 1/2 gives a negative value. *)
Example kl_divergence_negative :
  ∃ s, uncertainty_all_N "kl_divergence" [[1 / 4]] [[1 / 2]] = Ok [s] ∧ s < 0.
Proof.
  eexists. split; [reflexivity|]. simpl. unfold mean; simpl.
  replace (1 / 4 / (1 / 2)) with (/ 2) by lra.
  rewrite ln_Rinv by lra. pose proof ln_lt_2. lra.
Qed.

Lemma Rsum_zip_with_le (F G : R → R → R) (c : R) (r1 r2 : list R) :
  (∀ x y, unit_interval x → unit_interval y → F x y <= c * G x y) →
  Forall unit_interval r1 → Forall unit_interval r2 →
  Rsum (zip_with F r1 r2) <= c * Rsum (zip_with G r1 r2).
Proof.
  intros HF H1. revert r2. induction H1 as [|x r1 Hx _ IH];
    intros r2 H2; [simpl; lra|].
  destruct H2 as [|y r2 Hy H2]; [simpl; lra|]. simpl.
  specialize (IH r2 H2). specialize (HF x y Hx Hy). lra.
Qed.

(** X16.  For heads as the sigmoid leaves them, the 'focal_loss' value
    of a sample is at least zero and at most three quarters of its
    'cross_entropy' value. *)
Theorem focal_loss_below_cross_entropy (y_head_f_1 y_head_f_2 : tensor2) :
  same_shape y_head_f_1 y_head_f_2 →
  post_sigmoid y_head_f_1 → post_sigmoid y_head_f_2 →
  ∃ focal ce,
    uncertainty_all_N "focal_loss" y_head_f_1 y_head_f_2 = Ok focal
    ∧ uncertainty_all_N "cross_entropy" y_head_f_1 y_head_f_2 = Ok ce
    ∧ Forall2 (λ f c, 0 <= f <= 3 / 4 * c) focal ce.
Proof.
  intros Hs H1 H2.
  exists (spec_uncertainty FocalLoss y_head_f_1 y_head_f_2),
         (spec_uncertainty CrossEntropy y_head_f_1 y_head_f_2).
  split; [by apply (uncertainty_all_N_spec FocalLoss)|].
  split; [by apply (uncertainty_all_N_spec CrossEntropy)|].
  apply Forall2_samples; try done. intros r1 r2 Hl Hne Hr1 Hr2.
  rewrite !spec_sample_mean by done. split.
  - apply mean_nonneg; [by apply zip_with_nonempty|].
    apply Forall_zip_with_entries; [|done..].
    intros x y Hx Hy. by apply focal_loss_range.
  - unfold mean. rewrite !length_zip_with.
    assert (0 < INR (length r1 `min` length r2)) as Hn.
    { apply lt_0_INR. destruct r1, r2; simpl in *; try done; lia. }
    pose proof (Rsum_zip_with_le (spec_formula FocalLoss)
                  (spec_formula CrossEntropy) (3 / 4) r1 r2) as Hle.
    assert (Rsum (zip_with (spec_formula FocalLoss) r1 r2)
            <= 3 / 4 * Rsum (zip_with (spec_formula CrossEntropy) r1 r2)) as H.
    { apply Hle; [|done..]. intros x y Hx Hy. by apply focal_loss_range. }
    unfold Rdiv. rewrite <- Rmult_assoc.
    apply Rmult_le_compat_r; [|done].
    left. by apply Rinv_0_lt_compat.
Qed.


Lemma same_shape_fixture : same_shape [[1 / 2; 1 / 4]] [[1 / 4; 3 / 4]].
Proof. repeat constructor. Qed.

Lemma post_sigmoid_fixture_1 : post_sigmoid [[1 / 2; 1 / 4]].
Proof. repeat constructor; (done || lra). Qed.

Lemma post_sigmoid_fixture_2 : post_sigmoid [[1 / 4; 3 / 4]].
Proof. repeat constructor; (done || lra). Qed.

Lemma l2_norm_js_divergence_symmetric_witness :
  uncertainty_all_N "l2_norm" [[1 / 2; 1 / 4]] [[1 / 4; 3 / 4]]
  = uncertainty_all_N "l2_norm" [[1 / 4; 3 / 4]] [[1 / 2; 1 / 4]]
  ∧ uncertainty_all_N "js_divergence" [[1 / 2; 1 / 4]] [[1 / 4; 3 / 4]]
    = uncertainty_all_N "js_divergence" [[1 / 4; 3 / 4]] [[1 / 2; 1 / 4]].
Proof.
  apply (l2_norm_js_divergence_symmetric [[1 / 2; 1 / 4]] [[1 / 4; 3 / 4]]).
  exact same_shape_fixture.
Defined.

Lemma l2_norm_cross_entropy_focal_loss_nonnegative_witness :
  ∃ u, uncertainty_all_N "cross_entropy" [[1 / 2; 1 / 4]] [[1 / 4; 3 / 4]]
       = Ok u
       ∧ length u = 1%nat ∧ Forall (λ s, 0 <= s) u.
Proof.
  apply (l2_norm_cross_entropy_focal_loss_nonnegative CrossEntropy
           [[1 / 2; 1 / 4]] [[1 / 4; 3 / 4]]).
  - right. left. reflexivity.
  - exact same_shape_fixture.
  - exact post_sigmoid_fixture_1.
  - exact post_sigmoid_fixture_2.
Defined.

Lemma focal_loss_below_cross_entropy_witness :
  ∃ focal ce,
    uncertainty_all_N "focal_loss" [[1 / 2; 1 / 4]] [[1 / 4; 3 / 4]] = Ok focal
    ∧ uncertainty_all_N "cross_entropy" [[1 / 2; 1 / 4]] [[1 / 4; 3 / 4]]
      = Ok ce
    ∧ Forall2 (λ f c, 0 <= f <= 3 / 4 * c) focal ce.
Proof.
  apply (focal_loss_below_cross_entropy [[1 / 2; 1 / 4]] [[1 / 4; 3 / 4]]).
  - exact same_shape_fixture.
  - exact post_sigmoid_fixture_1.
  - exact post_sigmoid_fixture_2.
Defined.

End FormulaExtras.


(* ===================================================================== *)
(** * More about the top-k mean                                           *)
(* ===================================================================== *)

Module TopKExtras.
Import Py Tensor Uncertainty TensorFacts DispatchFacts TopKFacts
  IdenticalHeadsFacts FormulaExtras.
Local Open Scope R_scope.

(** ** How many samples are averaged *)

Lemma slice_from_length {A} (k : Z) (l : list A) :
  length (slice_from (- k) l)
  = Z.to_nat (if (0 <? k)%Z then Z.min k (Z.of_nat (length l))
              else Z.max (Z.of_nat (length l) + k) 0).
Proof.
  unfold slice_from. rewrite length_drop.
  destruct (Z.ltb_spec (- k) 0), (Z.ltb_spec 0 k); lia.
Qed.

Lemma selection_length (u : tensor1) (arg : list nat) (k : Z) :
  is_argsort u arg →
  length (index u (slice_from (- k) arg))
  = Z.to_nat (if (0 <? k)%Z then Z.min k (Z.of_nat (length u))
              else Z.max (Z.of_nat (length u) + k) 0).
Proof.
  intros H. unfold index.
  by rewrite length_fmap, slice_from_length, (is_argsort_length u arg H).
Qed.

(** X19.  The number of samples averaged is [min(k, N)] for a positive
    [k] and [max(N + k, 0)] otherwise, so none is averaged (and torch
    returns NaN) exactly when there is no sample or [k <= -N]. *)
Theorem selection_size (u : tensor1) (arg : list nat) (k : Z) :
  is_argsort u arg →
  length (index u (slice_from (- k) arg))
  = Z.to_nat (if (0 <? k)%Z then Z.min k (Z.of_nat (length u))
              else Z.max (Z.of_nat (length u) + k) 0)
  ∧ (index u (slice_from (- k) arg) = []
     ↔ u = [] ∨ (k ≤ - Z.of_nat (length u))%Z).
Proof.
  intros H. pose proof (selection_length u arg k H) as Hl.
  split; [done|]. rewrite <- length_zero_iff_nil, Hl.
  destruct (Z.ltb_spec 0 k); split.
  - intros Hz. left. apply length_zero_iff_nil. lia.
  - intros [->| ?]; simpl; lia.
  - intros Hz. right. lia.
  - intros [->| ?]; simpl in *; lia.
Qed.

(** ** A negative [k] *)

Lemma slice_from_negative {A} (k : Z) (l : list A) :
  (- Z.of_nat (length l) < k < 0)%Z →
  slice_from (- k) l = slice_from (- (Z.of_nat (length l) + k)) l.
Proof.
  intros Hk. unfold slice_from.
  destruct (Z.ltb_spec (- k) 0), (Z.ltb_spec (- (Z.of_nat (length l) + k)) 0);
    try lia.
  f_equal. lia.
Qed.

(** X20.  A negative [cfg.k] is not refused: [arg[-k:]] then drops the
    [-k] smallest values, and the score is the one of [k + N]. *)
Theorem negative_k_drops_smallest (u : tensor1) (arg : list nat) (k : Z) :
  is_argsort u arg → (- Z.of_nat (length u) < k < 0)%Z →
  slice_from (- k) arg = drop (Z.to_nat (- k)) arg
  ∧ uncertainty_single_with arg u k
    = uncertainty_single_with arg u (Z.of_nat (length u) + k).
Proof.
  intros H Hk. pose proof (is_argsort_length u arg H) as Hl. split.
  - unfold slice_from. destruct (Z.ltb_spec (- k) 0); [lia|]. f_equal. lia.
  - unfold uncertainty_single_with. rewrite <- Hl.
    by rewrite <- slice_from_negative by lia.
Qed.

(** ** The selected values are values of [u] *)

Lemma Forall_selection (P : R → Prop) (u : tensor1) (arg : list nat) (k : Z) :
  is_argsort u arg → Forall P u → Forall P (index u (slice_from (- k) arg)).
Proof.
  intros H Hu. unfold index. rewrite slice_from_fmap. unfold slice_from.
  apply Forall_drop. fold (index u arg).
  by rewrite (is_argsort_Permutation u arg H).
Qed.

Lemma selection_nonempty (u : tensor1) (arg : list nat) (k : Z) :
  is_argsort u arg → u ≠ [] → (- Z.of_nat (length u) < k)%Z →
  index u (slice_from (- k) arg) ≠ [].
Proof.
  intros H Hne Hk Hnil.
  rewrite <- length_zero_iff_nil, (selection_length u arg k H) in Hnil.
  assert (0 < length u)%nat by (destruct u; [done|simpl; lia]).
  destruct (Z.ltb_spec 0 k); lia.
Qed.

(** The score lies between any bounds of the per-sample values. *)
Lemma score_bounds (u : tensor1) (arg : list nat) (k : Z) (lo hi : R) :
  is_argsort u arg → u ≠ [] → (- Z.of_nat (length u) < k)%Z →
  Forall (λ x, lo <= x <= hi) u →
  lo <= uncertainty_single_with arg u k <= hi.
Proof.
  intros H Hne Hk Hu. unfold uncertainty_single_with.
  apply mean_bounds; [by apply selection_nonempty|by apply Forall_selection].
Qed.

(** ** [k = 1]: the largest value *)



(** ** A larger [k] *)

Lemma slice_from_nested {A} (k1 k2 : Z) (l : list A) :
  (1 ≤ k1 ≤ k2)%Z → (k2 ≤ Z.of_nat (length l))%Z →
  slice_from (- k2) l
  = take (Z.to_nat (k2 - k1)) (slice_from (- k2) l) ++ slice_from (- k1) l.
Proof.
  intros Hk Hk2. rewrite <- (take_drop (Z.to_nat (k2 - k1))) at 1. f_equal.
  rewrite !slice_from_last by lia. rewrite drop_drop. f_equal. lia.
Qed.

(** X22.  Between 1 and [N] a larger [k] keeps every sample a smaller
    one selects and puts [k2 - k1] more in front of them, none of which
    has a value above the value of a sample already selected. *)
Theorem larger_k_adds_smaller_samples (u : tensor1) (arg : list nat)
    (k1 k2 : Z) :
  is_argsort u arg → (1 ≤ k1 ≤ k2)%Z → (k2 ≤ Z.of_nat (length u))%Z →
  ∃ added : list nat,
    slice_from (- k2) arg = added ++ slice_from (- k1) arg
    ∧ length added = Z.to_nat (k2 - k1)
    ∧ ∀ i j, i ∈ added → j ∈ slice_from (- k1) arg →
        nth i u 0 <= nth j u 0.
Proof.
  intros H Hk Hk2. pose proof (is_argsort_length u arg H) as Hl.
  exists (take (Z.to_nat (k2 - k1)) (slice_from (- k2) arg)).
  pose proof (slice_from_nested k1 k2 arg Hk) as Hnest.
  rewrite Hl in Hnest. specialize (Hnest Hk2).
  split; [done|]. split.
  - rewrite length_take, slice_from_last, length_drop by lia. lia.
  - intros i j Hi Hj. destruct H as [_ Hsorted].
    apply Sorted_StronglySorted in Hsorted; [|apply _].
    rewrite <- (take_drop (length arg - Z.to_nat k2) arg) in Hsorted.
    rewrite <- (slice_from_last k2 arg), Hnest in Hsorted by lia.
    unfold index in Hsorted. rewrite !fmap_app in Hsorted.
    apply StronglySorted_app_1_r in Hsorted.
    apply (StronglySorted_app_1_elem_of _ _ _ _ _ Hsorted).
    + by apply (list_elem_of_fmap_2 (λ i, nth i u 0)).
    + by apply (list_elem_of_fmap_2 (λ i, nth i u 0)).
Qed.


(** ** The score of [inference_detector], from the raw heads *)

Lemma same_shape_t_map (f g : R → R) (a b : tensor2) :
  same_shape a b → same_shape (t_map f a) (t_map g b).
Proof.
  induction 1 as [|r1 r2 a b Hl _ IH]; [constructor|].
  unfold t_map in *. csimpl. constructor; [|done].
  by rewrite !length_fmap.
Qed.

Lemma same_shape_nonempty (a b : tensor2) :
  same_shape a b → Forall (λ row, row ≠ []) a → Forall (λ row, row ≠ []) b.
Proof.
  induction 1 as [|r1 r2 a b Hl _ IH]; [done|]. intros Ha.
  apply Forall_cons in Ha as [Hr Ha]. constructor; [|auto].
  destruct r1, r2; simpl in *; done.
Qed.

Lemma score_of_heads (uncertainty_type : string) (k : Z)
    (heads_1 heads_2 : list tensor2) (u : tensor1) :
  uncertainty_all_N uncertainty_type (t_sigmoid (cat0 heads_1))
    (t_sigmoid (cat0 heads_2)) = Ok u →
  uncertainty_of_heads uncertainty_type k heads_1 heads_2
  = Ok (uncertainty_single_with (argsort u) u k).
Proof. intros Hu. unfold uncertainty_of_heads. by rewrite Hu. Qed.

(** X17.  With 'l2_norm' the score of [inference_detector] lies between
    0 and 1, both included: for raw heads of one shape with at least one
    sample and one feature, and a [k] that selects a sample. *)
Theorem l2_norm_score_in_unit_interval (heads_1 heads_2 : list tensor2)
    (k : Z) :
  same_shape (cat0 heads_1) (cat0 heads_2) →
  cat0 heads_1 ≠ [] → Forall (λ row, row ≠ []) (cat0 heads_1) →
  (- Z.of_nat (length (cat0 heads_1)) < k)%Z →
  ∃ s, uncertainty_of_heads "l2_norm" k heads_1 heads_2 = Ok s
       ∧ 0 <= s <= 1.
Proof.
  intros Hs Hne Hrows Hk.
  set (y1 := t_sigmoid (cat0 heads_1)). set (y2 := t_sigmoid (cat0 heads_2)).
  assert (same_shape y1 y2) as Hs' by (by apply same_shape_t_map).
  assert (post_sigmoid y1) as Hp1 by (by apply post_sigmoid_t_sigmoid).
  assert (post_sigmoid y2) as Hp2.
  { apply post_sigmoid_t_sigmoid. by apply (same_shape_nonempty _ _ Hs). }
  set (u := spec_uncertainty L2Norm y1 y2).
  assert (length u = length (cat0 heads_1)) as Hlen.
  { unfold u. rewrite spec_uncertainty_length by done.
    unfold y1, t_sigmoid, t_map. by rewrite length_fmap. }
  assert (u ≠ []) as Hu.
  { intros E. rewrite E in Hlen. destruct (cat0 heads_1); done. }
  assert (Forall (λ s, 0 <= s <= 1) u) as Hrange.
  { apply samples_in_range; [|done..]. intros x y Hx Hy.
    pose proof (l2_norm_range x y Hx Hy). lra. }
  exists (uncertainty_single_with (argsort u) u k). split.
  - apply score_of_heads. by apply (uncertainty_all_N_spec L2Norm).
  - apply score_bounds; [apply argsort_is_argsort|done| |done].
    by rewrite Hlen.
Qed.

(** X18.  When the two heads the detector returns are equal, the
    'l2_norm' score is zero, whatever [k] selects. *)
Theorem identical_heads_l2_norm_score_zero (heads : list tensor2) (k : Z) :
  cat0 heads ≠ [] → Forall (λ row, row ≠ []) (cat0 heads) →
  (- Z.of_nat (length (cat0 heads)) < k)%Z →
  uncertainty_of_heads "l2_norm" k heads heads = Ok 0.
Proof.
  intros Hne Hrows Hk.
  assert (zero_at_identical_heads L2Norm) as Hz.
  { apply zero_on_diag. intros x _. apply l2_norm_diag. }
  set (u := (λ _ : list R, 0) <$> cat0 heads).
  rewrite (score_of_heads _ k heads heads u)
    by (by apply (zero_after_sigmoid L2Norm)).
  f_equal. unfold uncertainty_single_with, mean.
  rewrite Rsum_zero; [lra|].
  apply Forall_selection; [apply argsort_is_argsort|].
  unfold u. rewrite Forall_fmap. by apply Forall_true.
Qed.


(** ** On three samples *)

Lemma selection_size_witness :
  length (index [1; 3; 2] (slice_from (- 5) [0; 2; 1]%nat)) = 3%nat.
Proof.
  apply (selection_size [1; 3; 2] [0; 2; 1]%nat 5).
  exact UncertaintyClaims.is_argsort_132.
Defined.

Lemma negative_k_drops_smallest_witness :
  slice_from (- (- 1)) [0; 2; 1]%nat = [2; 1]%nat
  ∧ uncertainty_single_with [0; 2; 1]%nat [1; 3; 2] (- 1)
    = uncertainty_single_with [0; 2; 1]%nat [1; 3; 2] 2.
Proof.
  apply (negative_k_drops_smallest [1; 3; 2] [0; 2; 1]%nat (- 1)).
  - exact UncertaintyClaims.is_argsort_132.
  - simpl. lia.
Defined.


Lemma larger_k_adds_smaller_samples_witness :
  ∃ added : list nat,
    slice_from (- 2) [0; 2; 1]%nat = added ++ slice_from (- 1) [0; 2; 1]%nat
    ∧ length added = 1%nat
    ∧ ∀ i j, i ∈ added → j ∈ slice_from (- 1) [0; 2; 1]%nat →
        nth i [1; 3; 2] 0 <= nth j [1; 3; 2] 0.
Proof.
  apply (larger_k_adds_smaller_samples [1; 3; 2] [0; 2; 1]%nat 1 2).
  - exact UncertaintyClaims.is_argsort_132.
  - lia.
  - simpl. lia.
Defined.

Lemma l2_norm_score_in_unit_interval_witness :
  ∃ s, uncertainty_of_heads "l2_norm" 1 [[[0]; [1]]] [[[0]; [0]]] = Ok s
       ∧ 0 <= s <= 1.
Proof.
  apply (l2_norm_score_in_unit_interval [[[0]; [1]]] [[[0]; [0]]] 1).
  - repeat constructor.
  - discriminate.
  - repeat constructor; discriminate.
  - simpl. lia.
Defined.

Lemma identical_heads_l2_norm_score_zero_witness :
  uncertainty_of_heads "l2_norm" 1 [[[0]; [1]]] [[[0]; [1]]] = Ok 0.
Proof.
  apply (identical_heads_l2_norm_score_zero [[[0]; [1]]] 1).
  - discriminate.
  - repeat constructor; discriminate.
  - simpl. lia.
Defined.

End TopKExtras.
